(** * AutoHeal-GCP healing function: classification, decision and remediation

    A shallow embedding of [cloud-functions/healing_function/main.py]
    (class [AutoHealEngine]) and the properties of its decision engine.

    Conventions of the embedding.
    - Alert payloads are the values [json.loads] produces: [value].
    - Python [str] is modelled by [string]; one character is one code point
      below 256 (Latin-1), on which [str.lower] is [str_lower].
    - A Python dict is an association list in insertion order; [dict_get]
      returns the first binding of a key.
    - Exceptions are the subclasses of [Exception]: a class name and the
      text [str(e)] gives.  Code that may raise lives in [completion] (pure) or
      in [M] (with the trace of calls made to the collaborators).
    - Diagnostic [logger.info] / [logger.error] / [logger.warning] lines are
      not modelled: Python's logging does not raise into its caller. *)

From Stdlib Require Import String Ascii List ZArith Lia Bool Arith.
From Stdlib Require Import SpecFloat DecimalString.
Import ListNotations.
Open Scope string_scope.

(* ===================================================================== *)
(** ** Python values and exceptions *)

#[local] Set Warnings "-register-all".

Inductive value : Type :=
| VNone
| VBool (b : bool)
| VInt (n : Z)
| VFloat (f : spec_float)
| VStr (s : string)
| VList (l : list value)
| VDict (d : list (string * value)).

Definition pydict := list (string * value).

Record exn : Type := MkExn { exn_class : string; exn_msg : string }.

(** [str(e)] *)
Definition str_exn (e : exn) : string := exn_msg e.

Inductive completion (A : Type) : Type :=
| Ok (a : A)
| Raise (e : exn).
Arguments Ok {A} a.
Arguments Raise {A} e.

Definition rbind {A B} (c : completion A) (k : A -> completion B) : completion B :=
  match c with
  | Ok a => k a
  | Raise e => Raise e
  end.

Declare Scope py_scope.
Delimit Scope py_scope with py.
Notation "x <-- c ;; k" := (rbind c (fun x => k))
  (at level 61, c at next level, right associativity) : py_scope.
Open Scope py_scope.

(** [type(v).__name__] *)
Definition type_name (v : value) : string :=
  match v with
  | VNone => "NoneType"
  | VBool _ => "bool"
  | VInt _ => "int"
  | VFloat _ => "float"
  | VStr _ => "str"
  | VList _ => "list"
  | VDict _ => "dict"
  end.

Definition AttributeError (v : value) (attr : string) : exn :=
  MkExn "AttributeError"
        ("'" ++ type_name v ++ "' object has no attribute '" ++ attr ++ "'").

(** [bool(v)] *)
Definition truthy (v : value) : bool :=
  match v with
  | VNone => false
  | VBool b => b
  | VInt n => negb (n =? 0)%Z
  | VFloat (S754_zero _) => false
  | VFloat _ => true
  | VStr s => negb (s =? "")
  | VList [] => false
  | VList _ => true
  | VDict [] => false
  | VDict _ => true
  end.

(** [truthy] of a module-level setting read with [os.environ.get] *)
Definition truthy_opt (o : option string) : bool :=
  match o with
  | None => false
  | Some s => negb (s =? "")
  end.

Fixpoint dict_get (d : pydict) (k : string) : option value :=
  match d with
  | [] => None
  | (k', v) :: d' => if k' =? k then Some v else dict_get d' k
  end.

(** [d.get(k, default)] on a value known to be a dict *)
Definition dict_get_default (d : pydict) (k : string) (default : value) : value :=
  match dict_get d k with
  | Some v => v
  | None => default
  end.

(** [v.get(k, default)]: only a dict has the method *)
Definition py_get (v : value) (k : string) (default : value) : completion value :=
  match v with
  | VDict d => Ok (dict_get_default d k default)
  | _ => Raise (AttributeError v "get")
  end.

(** [v == s] for a string literal [s] *)
Definition eq_str (v : value) (s : string) : bool :=
  match v with
  | VStr s' => s' =? s
  | _ => false
  end.

(* ===================================================================== *)
(** ** Strings: [str.lower] and the [in] operator *)

Definition lower_char (c : ascii) : ascii :=
  let n := nat_of_ascii c in
  if (((65 <=? n) && (n <=? 90))
      || ((192 <=? n) && (n <=? 222) && negb (n =? 215)))%nat
  then ascii_of_nat (n + 32)
  else c.

Fixpoint str_lower (s : string) : string :=
  match s with
  | EmptyString => EmptyString
  | String c s' => String (lower_char c) (str_lower s')
  end.

(** [v.lower()]: only a str has the method *)
Definition py_lower (v : value) : completion string :=
  match v with
  | VStr s => Ok (str_lower s)
  | _ => Raise (AttributeError v "lower")
  end.

(** [needle in hay] on two strings *)
Fixpoint str_in (needle hay : string) : bool :=
  prefix needle hay ||
  match hay with
  | EmptyString => false
  | String _ hay' => str_in needle hay'
  end.

(* ===================================================================== *)
(** ** Alert classifier and resource extractor *)

Definition classify_alert (alert_data : value) : completion string :=
  incident <-- py_get alert_data "incident" (VDict []) ;;
  raw <-- py_get incident "condition_display_name" (VStr "") ;;
  condition_name <-- py_lower raw ;;
  Ok (if str_in "cpu" condition_name then "high_cpu"
      else if str_in "error" condition_name || str_in "5xx" condition_name
           then "error_rate_spike"
      else if str_in "memory" condition_name then "memory_leak"
      else if str_in "uptime" condition_name || str_in "availability" condition_name
           then "service_down"
      else "unknown").

Definition extract_resource_info (alert_data : value) : completion pydict :=
  incident <-- py_get alert_data "incident" (VDict []) ;;
  resource <-- py_get incident "resource" (VDict []) ;;
  ty <-- py_get resource "type" (VStr "unknown") ;;
  labels <-- py_get resource "labels" (VDict []) ;;
  labels1 <-- py_get resource "labels" (VDict []) ;;
  instance_name <-- py_get labels1 "instance_name" VNone ;;
  name <-- (if truthy instance_name then Ok instance_name
            else labels2 <-- py_get resource "labels" (VDict []) ;;
                 py_get labels2 "service_name" (VStr "unknown")) ;;
  Ok [("type", ty); ("labels", labels); ("name", name)].

(* ===================================================================== *)
(** ** Collaborators: cloud control surfaces, sinks, clock *)

(** Module-level settings, read from the environment at import time.
    [os.environ.get(k)] is [None] when unset; with a default it is a str. *)
Record settings : Type := {
  PROJECT_ID : option string;
  ZONE : string;
  REGION : string
}.

Record notify_settings : Type := {
  SENDGRID_API_KEY : option string;
  SLACK_WEBHOOK_URL : option string;
  NOTIFICATION_EMAIL : string;
  SENDGRID_SENDER_EMAIL : string
}.

(** An operation handle returned by a client: [hasattr(op, 'name')] and
    [hasattr(op, 'result')]. *)
Record operation : Type := {
  op_name : option string;
  op_has_result : bool
}.

Record env_var : Type := EnvVar { ev_name : string; ev_value : string }.

Record container : Type := { c_env : list env_var }.

Record revision_template : Type := {
  scaling_max_instance_count : Z;
  containers : list container
}.

(** [run_v2.Service]: the fields the engine reads or writes. *)
Record service : Type := {
  svc_name : string;
  template : revision_template
}.

(** One call that leaves the process. *)
Inductive request : Type :=
| StopInstance (project : option string) (zone : string) (instance : value)
| StartInstance (project : option string) (zone : string) (instance : value)
| WaitZoneOperation (operation_name : string) (project : option string) (zone : string)
| OperationResult (op : operation) (timeout : option Z)
| GetService (path : string)
| UpdateService (svc : service) (update_mask : string)
| UtcNow
| LogWrite (log_entry : pydict)
| SlackPost (url : option string) (message : string)
| EmailPost (api_key : option string) (recipient sender : string)
            (message : string) (alert_type : string).

(** A call and the exception it raised, if any. *)
Definition event : Type := request * option exn.

Definition history := list event.

(** The control surfaces answer a request knowing everything that happened
    before it; building the request object is part of the call. *)
Record cloud : Type := {
  (** [compute_client.stop], [compute_client.start],
      [cloud_run_client.update_service] *)
  cloud_operation : history -> request -> completion operation;
  (** [cloud_run_client.get_service] *)
  cloud_service : history -> request -> completion service;
  (** [compute_client.wait], [operation.result] *)
  cloud_wait : history -> request -> completion unit;
  (** [hasattr(compute_client, 'wait')] *)
  compute_has_wait : bool
}.

(** Stateful code: the history of calls is threaded through. *)
Definition M (A : Type) : Type := history -> completion A * history.

Definition ret {A} (a : A) : M A := fun h => (Ok a, h).

Definition raise {A} (e : exn) : M A := fun h => (Raise e, h).

Definition bind {A B} (c : M A) (k : A -> M B) : M B :=
  fun h => match c h with
           | (Ok a, h') => k a h'
           | (Raise e, h') => (Raise e, h')
           end.

(** [try: c  except Exception as e: handler e] *)
Definition try_catch {A} (c : M A) (handler : exn -> M A) : M A :=
  fun h => match c h with
           | (Ok a, h') => (Ok a, h')
           | (Raise e, h') => handler e h'
           end.

Definition lift {A} (r : completion A) : M A := fun h => (r, h).

Notation "x <- c ;; k" := (bind c (fun x => k))
  (at level 61, c at next level, right associativity) : py_scope.

Definition err_of {A} (r : completion A) : option exn :=
  match r with
  | Ok _ => None
  | Raise e => Some e
  end.

(** Perform one call and record it. *)
Definition call {A} (oracle : history -> request -> completion A) (req : request) : M A :=
  fun h => let r := oracle h req in (r, (h ++ [(req, err_of r)])%list).

(** [outcome.get('status')] *)
Definition status_of (outcome : pydict) : value :=
  dict_get_default outcome "status" VNone.

(** [outcome.get('action')] *)
Definition action_of (outcome : pydict) : value :=
  dict_get_default outcome "action" VNone.

(** [f"{n}"] for an int *)
Definition str_int (n : Z) : string := NilZero.string_of_int (Z.to_int n).

(** [f"{o}"] for a setting that may be [None] *)
Definition str_opt (o : option string) : string :=
  match o with
  | Some s => s
  | None => "None"
  end.

(* ===================================================================== *)
(** ** The entry points' inputs *)

(** ['data' in v]: key of a dict, substring of a str, element of a list;
    the other values are no containers. *)
Definition py_in (k : string) (v : value) : completion bool :=
  match v with
  | VDict d => Ok (match dict_get d k with Some _ => true | None => false end)
  | VStr s => Ok (str_in k s)
  | VList l => Ok (existsb (fun x => eq_str x k) l)
  | _ => Raise (MkExn "TypeError"
                      ("argument of type '" ++ type_name v ++ "' is not iterable"))
  end.

(** [v[k]] for a str [k]; the texts of the exceptions are CPython 3.11's. *)
Definition py_subscript (v : value) (k : string) : completion value :=
  match v with
  | VDict d =>
      match dict_get d k with
      | Some x => Ok x
      | None => Raise (MkExn "KeyError" ("'" ++ k ++ "'"))
      end
  | VStr _ => Raise (MkExn "TypeError" "string indices must be integers, not 'str'")
  | VList _ =>
      Raise (MkExn "TypeError" "list indices must be integers or slices, not str")
  | _ => Raise (MkExn "TypeError"
                      ("'" ++ type_name v ++ "' object is not subscriptable"))
  end.

(** What [autoheal_http] reads of the request: [request.method] and what
    [request.get_json()] does. *)
Record http_request : Type := {
  method : string;
  get_json : completion value
}.

(* ===================================================================== *)
(** ** The healing engine *)

Section Engine.

(** [str(v)] of a float, a list or a dict: the runtime's rendering. *)
Variable repr_other : value -> string.
Variable cfg : settings.
Variable gcp : cloud.
(** [datetime.utcnow().isoformat()], read after the given history. *)
Variable clock : history -> string.

(** [f"{v}"] *)
Definition py_str (v : value) : string :=
  match v with
  | VNone => "None"
  | VBool true => "True"
  | VBool false => "False"
  | VInt n => str_int n
  | VStr s => s
  | _ => repr_other v
  end.

Definition utcnow_isoformat : M string :=
  fun h => (Ok (clock h), (h ++ [(UtcNow, None)])%list).

(** [operation.result(timeout=...)] *)
Definition operation_result (op : operation) (timeout : option Z) : M unit :=
  if op_has_result op
  then call (cloud_wait gcp) (OperationResult op timeout)
  else raise (MkExn "AttributeError"
                    "'Operation' object has no attribute 'result'").

(** The manual polling fallback only sleeps: its loop is left when the
    elapsed time has reached [timeout], and the test after the loop then
    raises. *)
Definition wait_for_operation (op : operation) (operation_type : string)
           (project : option string) (zone : string) : M unit :=
  try_catch
    (match (compute_has_wait gcp && truthy_opt project && truthy (VStr zone))%bool,
           op_name op with
     | true, Some operation_name =>
         call (cloud_wait gcp) (WaitZoneOperation operation_name project zone)
     | _, _ =>
         if op_has_result op
         then call (cloud_wait gcp) (OperationResult op (Some 300%Z))
         else raise (MkExn "Exception"
                      ("Operation " ++ operation_type
                       ++ " timed out after " ++ str_int 300 ++ " seconds"))
     end)
    (fun e => raise e).

Definition service_path (service_name : value) : string :=
  "projects/" ++ str_opt (PROJECT_ID cfg) ++ "/locations/" ++ REGION cfg
  ++ "/services/" ++ py_str service_name.

Definition restart_vm_instance (instance_name : value) : M pydict :=
  try_catch
    (stop_operation <-
       call (cloud_operation gcp)
            (StopInstance (PROJECT_ID cfg) (ZONE cfg) instance_name) ;;
     _ <- wait_for_operation stop_operation "stop" (PROJECT_ID cfg) (ZONE cfg) ;;
     start_operation <-
       call (cloud_operation gcp)
            (StartInstance (PROJECT_ID cfg) (ZONE cfg) instance_name) ;;
     _ <- wait_for_operation start_operation "start" (PROJECT_ID cfg) (ZONE cfg) ;;
     ret [("action", VStr "vm_restart");
          ("status", VStr "success");
          ("instance", instance_name);
          ("message", VStr ("Successfully restarted VM instance "
                            ++ py_str instance_name))])
    (fun e =>
       ret [("action", VStr "vm_restart");
            ("status", VStr "failed");
            ("instance", instance_name);
            ("error", VStr (str_exn e))]).

Definition scale_cloud_run_service (service_name : value) : M pydict :=
  try_catch
    (service <- call (cloud_service gcp) (GetService (service_path service_name)) ;;
     let current_max_instances :=
       if (scaling_max_instance_count (template service) =? 0)%Z then 10%Z
       else scaling_max_instance_count (template service) in
     let new_max_instances := Z.min (current_max_instances + 5) 50 in
     if (new_max_instances >? current_max_instances)%Z
     then
       let updated_service :=
         {| svc_name := service_path service_name;
            template := {| scaling_max_instance_count := new_max_instances;
                           containers := [] |} |} in
       op <- call (cloud_operation gcp)
                  (UpdateService updated_service
                                 "template.scaling.max_instance_count") ;;
       _ <- operation_result op None ;;
       ret [("action", VStr "cloud_run_scale");
            ("status", VStr "success");
            ("service", service_name);
            ("message", VStr ("Successfully scaled Cloud Run service "
                              ++ py_str service_name ++ " to max instances "
                              ++ str_int new_max_instances))]
     else
       ret [("action", VStr "cloud_run_scale");
            ("status", VStr "skipped");
            ("service", service_name);
            ("message", VStr ("Max instances already at or above target ("
                              ++ str_int new_max_instances ++ ") for "
                              ++ py_str service_name))])
    (fun e =>
       ret [("action", VStr "cloud_run_scale");
            ("status", VStr "failed");
            ("service", service_name);
            ("error", VStr (str_exn e))]).

(** The [for env_var in ...] loop: the first [RESTART_TIMESTAMP] entry
    gets the current time; the flag tells whether one was found. *)
Fixpoint update_restart_timestamp (vars : list env_var) : M (list env_var * bool) :=
  match vars with
  | [] => ret ([], false)
  | env_var :: rest =>
      if ev_name env_var =? "RESTART_TIMESTAMP"
      then now <- utcnow_isoformat ;;
           ret (EnvVar (ev_name env_var) now :: rest, true)
      else r <- update_restart_timestamp rest ;;
           ret (env_var :: fst r, snd r)
  end.

(** [containers[0]] raises on an empty list; replacing an empty [env] by
    [[]] changes nothing. *)
Definition restart_cloud_run_service (service_name : value) : M pydict :=
  try_catch
    (service <- call (cloud_service gcp) (GetService (service_path service_name)) ;;
     let new_template := template service in
     match containers new_template with
     | [] => raise (MkExn "IndexError" "list index out of range")
     | container0 :: others =>
         r <- update_restart_timestamp (c_env container0) ;;
         vars <- (if snd r then ret (fst r)
                  else now <- utcnow_isoformat ;;
                       ret (fst r ++ [EnvVar "RESTART_TIMESTAMP" now])%list) ;;
         let updated_service :=
           {| svc_name := service_path service_name;
              template :=
                {| scaling_max_instance_count :=
                     scaling_max_instance_count new_template;
                   containers := {| c_env := vars |} :: others |} |} in
         op <- call (cloud_operation gcp) (UpdateService updated_service "template") ;;
         _ <- operation_result op None ;;
         ret [("action", VStr "cloud_run_restart");
              ("status", VStr "success");
              ("service", service_name);
              ("message",
               VStr ("Successfully initiated restart (new revision deployment) for Cloud Run service "
                     ++ py_str service_name))]
     end)
    (fun e =>
       ret [("action", VStr "cloud_run_restart");
            ("status", VStr "failed");
            ("service", service_name);
            ("error", VStr (str_exn e))]).

Definition alert_only_unsupported (resource_type : value) : pydict :=
  [("action", VStr "alert_only");
   ("reason", VStr ("Unsupported resource type: " ++ py_str resource_type))].

Definition handle_high_cpu (resource_info : pydict) (alert_data : value) : M pydict :=
  let resource_type := dict_get_default resource_info "type" VNone in
  let resource_name := dict_get_default resource_info "name" VNone in
  if eq_str resource_type "gce_instance" then restart_vm_instance resource_name
  else if eq_str resource_type "cloud_run_revision"
       then scale_cloud_run_service resource_name
  else ret (alert_only_unsupported resource_type).

Definition handle_service_down (resource_info : pydict) (alert_data : value) : M pydict :=
  let resource_type := dict_get_default resource_info "type" VNone in
  let resource_name := dict_get_default resource_info "name" VNone in
  if eq_str resource_type "gce_instance" then restart_vm_instance resource_name
  else if eq_str resource_type "cloud_run_revision"
       then restart_cloud_run_service resource_name
  else ret (alert_only_unsupported resource_type).

Definition handle_memory_leak (resource_info : pydict) (alert_data : value) : M pydict :=
  handle_service_down resource_info alert_data.

Definition handle_error_rate_spike (resource_info : pydict) (alert_data : value)
  : M pydict :=
  let resource_type := dict_get_default resource_info "type" VNone in
  let resource_name := dict_get_default resource_info "name" VNone in
  if eq_str resource_type "cloud_run_revision"
  then scale_result <- scale_cloud_run_service resource_name ;;
       if negb (eq_str (status_of scale_result) "success")
       then restart_cloud_run_service resource_name
       else ret scale_result
  else handle_service_down resource_info alert_data.

Definition handle_unknown_alert (resource_info : pydict) (alert_data : value)
  : M pydict :=
  ret [("action", VStr "alert_only");
       ("reason", VStr "Unknown alert type - manual intervention required");
       ("alert_data", alert_data)].

(** [self.recovery_actions], built in [__init__] *)
Definition recovery_actions : list (string * (pydict -> value -> M pydict)) :=
  [("high_cpu", handle_high_cpu);
   ("service_down", handle_service_down);
   ("memory_leak", handle_memory_leak);
   ("error_rate_spike", handle_error_rate_spike)].

Fixpoint lookup_action (table : list (string * (pydict -> value -> M pydict)))
         (alert_type : string) : option (pydict -> value -> M pydict) :=
  match table with
  | [] => None
  | (k, handler) :: table' =>
      if k =? alert_type then Some handler else lookup_action table' alert_type
  end.

(** The dispatch of [process_alert]: [if alert_type in self.recovery_actions] *)
Definition dispatch (alert_type : string) (resource_info : pydict)
           (alert_data : value) : M pydict :=
  match lookup_action recovery_actions alert_type with
  | Some handler => handler resource_info alert_data
  | None => handle_unknown_alert resource_info alert_data
  end.

(* ------------------------------------------------------------------- *)
(** *** Reporting *)

Variable ncfg : notify_settings.
(** [json.dumps] of the log entry with its emission, and
    [requests.post(...)] with [raise_for_status()]. *)
Variable sink : history -> request -> completion unit.
(** [format_notification_message]: the report text, which holds
    characters outside the modelled alphabet and a clock reading, and
    which none of the properties below looks into.  It may raise, and it
    reads the clock after every expression of the text that can raise:
    its caller records the reading of a text that was produced. *)
Variable format_notification_message :
  history -> string -> pydict -> pydict -> completion string.

Definition log_healing_action (alert_type : string) (resource_info result : pydict)
  : M unit :=
  try_catch
    (now <- utcnow_isoformat ;;
     let log_entry :=
       [("timestamp", VStr now);
        ("alert_type", VStr alert_type);
        ("resource", VDict resource_info);
        ("action_result", VDict result);
        ("severity", VStr (if eq_str (status_of result) "success"
                           then "INFO" else "ERROR"))] in
     call sink (LogWrite log_entry))
    (fun e => ret tt).

Definition send_slack_notification (message : string) : M unit :=
  try_catch
    (call sink (SlackPost (SLACK_WEBHOOK_URL ncfg) message))
    (fun e => ret tt).

Definition send_email_notification (message : string) (alert_type : string) : M unit :=
  if negb (truthy_opt (SENDGRID_API_KEY ncfg))
     || negb (truthy (VStr (NOTIFICATION_EMAIL ncfg)))
  then ret tt
  else
    try_catch
      (call sink (EmailPost (SENDGRID_API_KEY ncfg) (NOTIFICATION_EMAIL ncfg)
                            (SENDGRID_SENDER_EMAIL ncfg) message alert_type))
      (fun e => ret tt).

Definition send_notification (alert_type : string) (resource_info result : pydict)
  : M unit :=
  try_catch
    (message <- (fun h =>
                   match format_notification_message h alert_type
                                                     resource_info result with
                   | Ok message => (Ok message, (h ++ [(UtcNow, None)])%list)
                   | Raise e => (Raise e, h)
                   end) ;;
     _ <- (if truthy_opt (SLACK_WEBHOOK_URL ncfg)
           then send_slack_notification message else ret tt) ;;
     if truthy_opt (SENDGRID_API_KEY ncfg)
        && truthy (VStr (NOTIFICATION_EMAIL ncfg))
     then send_email_notification message alert_type
     else ret tt)
    (fun e => ret tt).

Definition process_alert (alert_data : value) : M pydict :=
  try_catch
    (alert_type <- lift (classify_alert alert_data) ;;
     resource_info <- lift (extract_resource_info alert_data) ;;
     result <- dispatch alert_type resource_info alert_data ;;
     _ <- log_healing_action alert_type resource_info result ;;
     _ <- send_notification alert_type resource_info result ;;
     let action_taken := dict_get_default result "action" (VStr "none") in
     now <- utcnow_isoformat ;;
     ret [("status", VStr "success");
          ("alert_type", VStr alert_type);
          ("resource", VDict resource_info);
          ("action_taken", action_taken);
          ("timestamp", VStr now)])
    (fun e =>
       now <- utcnow_isoformat ;;
       ret [("status", VStr "error");
            ("error", VStr (str_exn e));
            ("timestamp", VStr now)]).

(* --------------------------------------------------------------------- *)
(** *** Entry points *)

(** [base64.b64decode(x).decode('utf-8')] followed by [json.loads]. *)
Variable decode_message : value -> completion value.

(** The argument is [cloud_event.data].  The two [json.dumps] calls that
    feed the log lines are applied to values [json.loads] made or to the
    dict [process_alert] returned, and return. *)
Definition autoheal_function (cloud_event_data : value) : M pydict :=
  try_catch
    (alert_data <-
       lift (has_data <-- py_in "data" cloud_event_data ;;
             if has_data
             then raw <-- py_subscript cloud_event_data "data" ;;
                  decode_message raw
             else Ok cloud_event_data) ;;
     result <- process_alert alert_data ;;
     ret result)
    (fun e =>
       now <- utcnow_isoformat ;;
       ret [("status", VStr "error");
            ("error", VStr (str_exn e));
            ("timestamp", VStr now)]).

(** The body and the status code of the returned pair; [None] when the
    function returns the body alone. *)
Definition autoheal_http (request : http_request) : M (pydict * option Z) :=
  try_catch
    (if method request =? "GET"
     then now <- utcnow_isoformat ;;
          ret ([("status", VStr "healthy");
                ("service", VStr "AutoHeal-GCP");
                ("timestamp", VStr now);
                ("version", VStr "1.0.0")], None)
     else if method request =? "POST"
     then alert_data <- lift (get_json request) ;;
          if negb (truthy alert_data)
          then ret ([("error", VStr "No JSON data provided")], Some 400%Z)
          else result <- process_alert alert_data ;;
               ret (result, None)
     else ret ([("error", VStr "Method not allowed")], Some 405%Z))
    (fun e =>
       now <- utcnow_isoformat ;;
       ret ([("status", VStr "error");
             ("error", VStr (str_exn e));
             ("timestamp", VStr now)], Some 500%Z)).

End Engine.

(* ===================================================================== *)
(** ** Vocabulary of the properties *)

(** The request that mutates a managed service. *)
Definition is_update (e : event) : bool :=
  match fst e with
  | UpdateService _ _ => true
  | _ => false
  end.


Definition is_slack_post (e : event) : bool :=
  match fst e with
  | SlackPost _ _ => true
  | _ => false
  end.

Definition is_email_post (e : event) : bool :=
  match fst e with
  | EmailPost _ _ _ _ _ => true
  | _ => false
  end.

(** A processing result without its clock reading. *)
Definition without_timestamp (res : pydict) : pydict :=
  filter (fun kv => negb (fst kv =? "timestamp")) res.

(** Every value a computation returns normally satisfies [P]. *)
Definition returns_only {A} (c : M A) (P : A -> Prop) : Prop :=
  forall h a h', c h = (Ok a, h') -> P a.

(** The action names an outcome can carry. *)
Definition known_action (outcome : pydict) : Prop :=
  exists a, dict_get outcome "action" = Some (VStr a) /\
            In a ["vm_restart"; "cloud_run_scale"; "cloud_run_restart"; "alert_only"].

(** The two dict literals [process_alert] returns. *)
Definition success_result (alert_type : string) (resource_info outcome : pydict)
           (now : string) : pydict :=
  [("status", VStr "success");
   ("alert_type", VStr alert_type);
   ("resource", VDict resource_info);
   ("action_taken", dict_get_default outcome "action" (VStr "none"));
   ("timestamp", VStr now)].

Definition error_result (e : exn) (now : string) : pydict :=
  [("status", VStr "error");
   ("error", VStr (str_exn e));
   ("timestamp", VStr now)].

(** An exception raised by the classifier or by the extractor. *)
Definition pipeline_raises (alert_data : value) (e : exn) : Prop :=
  classify_alert alert_data = Raise e \/
  (exists alert_type, classify_alert alert_data = Ok alert_type /\
                      extract_resource_info alert_data = Raise e).

(** The two ways of waiting for an operation: [compute_client.wait] and
    [operation.result]. *)
Definition is_wait (r : request) : bool :=
  match r with
  | WaitZoneOperation _ _ _ | OperationResult _ _ => true
  | _ => false
  end.

(** A case-insensitive occurrence: some stretch of [s] lower-cases to
    [needle]. *)
Definition ci_contains (needle s : string) : Prop :=
  exists pre mid post, s = pre ++ mid ++ post /\ str_lower mid = needle.

Definition alert_cpu_and_errors : value :=
  VDict [("incident",
          VDict [("condition_display_name", VStr "Memory errors with high Cpu load")])].

(** The payloads on which the two [.get] calls and [.lower()] of
    [classify_alert] find the methods they call. *)
Definition well_formed_incident (alert_data : value) : bool :=
  match alert_data with
  | VDict d =>
      match dict_get d "incident" with
      | None => true
      | Some (VDict incident) =>
          match dict_get incident "condition_display_name" with
          | None | Some (VStr _) => true
          | Some _ => false
          end
      | Some _ => false
      end
  | _ => false
  end.

(** The condition display name the payload carries, if any. *)
Definition condition_display_name_of (alert_data : value) : option value :=
  match alert_data with
  | VDict d =>
      match dict_get d "incident" with
      | Some (VDict incident) => dict_get incident "condition_display_name"
      | _ => None
      end
  | _ => None
  end.

Definition alert_null_condition_name : value :=
  VDict [("incident", VDict [("condition_display_name", VNone)])].

Definition alert_without_incident : value := VDict [("version", VStr "1.2")].

Definition alert_null_labels : value :=
  VDict [("incident", VDict [("resource", VDict [("labels", VNone)])])].

Definition alert_empty_service_name : value :=
  VDict [("incident",
          VDict [("resource",
                  VDict [("type", VStr "cloud_run_revision");
                         ("labels", VDict [("service_name", VStr "")])])])].

(** The label is absent, or present with a falsy value ([None], "", 0...). *)
Definition unusable (labels : pydict) (k : string) : Prop :=
  forall v, dict_get labels k = Some v -> truthy v = false.

Definition alert_web_1 : pydict :=
  [("incident",
    VDict [("condition_display_name", VStr "CPU utilization above threshold");
           ("resource",
            VDict [("type", VStr "gce_instance");
                   ("labels", VDict [("instance_name", VStr "web-1")])])])].

(** Kinds of calls, for the properties about what is and is not called. *)
Definition is_restart_update (e : event) : bool :=
  match fst e with
  | UpdateService _ mask => mask =? "template"
  | _ => false
  end.

Definition is_scaling_update (e : event) : bool :=
  match fst e with
  | UpdateService _ mask => mask =? "template.scaling.max_instance_count"
  | _ => false
  end.

Definition is_service_call (e : event) : bool :=
  match fst e with
  | GetService _ | UpdateService _ _ => true
  | _ => false
  end.

Definition is_stop (e : event) : bool :=
  match fst e with
  | StopInstance _ _ _ => true
  | _ => false
  end.

Definition is_start (e : event) : bool :=
  match fst e with
  | StartInstance _ _ _ => true
  | _ => false
  end.

Definition is_zone_wait (e : event) : bool :=
  match fst e with
  | WaitZoneOperation _ _ _ => true
  | _ => false
  end.

Definition is_operation_result (e : event) : bool :=
  match fst e with
  | OperationResult _ _ => true
  | _ => false
  end.

Definition is_log_write (e : event) : bool :=
  match fst e with
  | LogWrite _ => true
  | _ => false
  end.

Definition is_clock_read (e : event) : bool :=
  match fst e with
  | UtcNow => true
  | _ => false
  end.

(** A call to one of the two cloud control surfaces. *)
Definition is_cloud_call (e : event) : bool :=
  match fst e with
  | StopInstance _ _ _ | StartInstance _ _ _ | WaitZoneOperation _ _ _
  | OperationResult _ _ | GetService _ | UpdateService _ _ => true
  | _ => false
  end.

(** The ceiling an update asks for. *)
Definition requested_ceiling (e : event) : option Z :=
  match fst e with
  | UpdateService svc _ => Some (scaling_max_instance_count (template svc))
  | _ => None
  end.

Definition is_restart_timestamp (v : env_var) : bool :=
  ev_name v =? "RESTART_TIMESTAMP".

(** The call [wait_for_operation] makes for an operation, if any. *)
Definition wait_request (gcp : cloud) (op : operation) (project : option string)
           (zone : string) : option request :=
  match (compute_has_wait gcp && truthy_opt project && truthy (VStr zone))%bool,
        op_name op with
  | true, Some operation_name => Some (WaitZoneOperation operation_name project zone)
  | _, _ => if op_has_result op then Some (OperationResult op (Some 300%Z)) else None
  end.

(** The wait [w] is for the operation [op]: the zone wait names it, the
    blocking result is asked of it. *)
Definition awaits (w : request) (op : operation) : Prop :=
  match w with
  | WaitZoneOperation operation_name _ _ => op_name op = Some operation_name
  | OperationResult op' _ => op' = op
  | _ => False
  end.

(** The exception of the manual polling fallback. *)
Definition timed_out (operation_type : string) : exn :=
  MkExn "Exception" ("Operation " ++ operation_type ++ " timed out after 300 seconds").

(** In plain words, what a restart does to the variables of the first
    container: the first variable named RESTART_TIMESTAMP gets the value
    [now]; when there is none, one is added at the end. *)
Fixpoint stamp (now : string) (vars : list env_var) : list env_var :=
  match vars with
  | [] => [EnvVar "RESTART_TIMESTAMP" now]
  | v :: rest =>
      if is_restart_timestamp v then EnvVar (ev_name v) now :: rest
      else v :: stamp now rest
  end.

(** The service a restart sends back. *)
Definition restarted (path : string) (svc : service) (container0 : container)
           (others : list container) (now : string) : service :=
  {| svc_name := path;
     template :=
       {| scaling_max_instance_count := scaling_max_instance_count (template svc);
          containers := {| c_env := stamp now (c_env container0) |} :: others |} |}.

(* ===================================================================== *)
(** ** Sample collaborators and alerts *)

Definition repr_demo (v : value) : string := "<object>".

Definition cfg_demo : settings :=
  {| PROJECT_ID := Some "demo-project";
     ZONE := "us-central1-a";
     REGION := "us-central1" |}.

Definition op_demo : operation :=
  {| op_name := Some "operation-1"; op_has_result := true |}.

Definition service_with (ceiling : Z) : service :=
  {| svc_name := "projects/demo-project/locations/us-central1/services/api-svc";
     template := {| scaling_max_instance_count := ceiling;
                    containers := [ {| c_env := [EnvVar "MODE" "prod"] |} ] |} |}.

(** Every call returns; the service has the given ceiling. *)
Definition gcp_healthy (ceiling : Z) : cloud :=
  {| cloud_operation := fun _ _ => Ok op_demo;
     cloud_service := fun _ _ => Ok (service_with ceiling);
     cloud_wait := fun _ _ => Ok tt;
     compute_has_wait := true |}.

Definition start_failure : exn := MkExn "ServiceUnavailable" "503 start failed".

(** Stop and the waits return; start raises. *)
Definition gcp_start_fails : cloud :=
  {| cloud_operation := fun _ req =>
                          match req with
                          | StartInstance _ _ _ => Raise start_failure
                          | _ => Ok op_demo
                          end;
     cloud_service := fun _ _ => Ok (service_with 10);
     cloud_wait := fun _ _ => Ok tt;
     compute_has_wait := true |}.

Definition clock_demo (h : history) : string := "2024-05-01T12:00:00".

Definition ncfg_demo : notify_settings :=
  {| SENDGRID_API_KEY := Some "SG.key";
     SLACK_WEBHOOK_URL := Some "https://hooks.slack.example/T000";
     NOTIFICATION_EMAIL := "admin@example.com";
     SENDGRID_SENDER_EMAIL := "autoheal@your-domain.com" |}.

Definition ncfg_off : notify_settings :=
  {| SENDGRID_API_KEY := None;
     SLACK_WEBHOOK_URL := None;
     NOTIFICATION_EMAIL := "admin@example.com";
     SENDGRID_SENDER_EMAIL := "autoheal@your-domain.com" |}.

Definition sink_ok (h : history) (req : request) : completion unit := Ok tt.

Definition sink_down (h : history) (req : request) : completion unit :=
  Raise (MkExn "ConnectionError" "connection refused").

Definition fmt_demo (h : history) (alert_type : string)
           (resource_info outcome : pydict) : completion string :=
  Ok ("AutoHeal Action Report: " ++ alert_type).

Definition api_svc_info : pydict :=
  [("type", VStr "cloud_run_revision");
   ("labels", VDict [("service_name", VStr "api-svc")]);
   ("name", VStr "api-svc")].

Definition web_1_info : pydict :=
  [("type", VStr "gce_instance");
   ("labels", VDict [("instance_name", VStr "web-1")]);
   ("name", VStr "web-1")].

Definition database_info : pydict :=
  [("type", VStr "cloudsql_database");
   ("labels", VDict []);
   ("name", VStr "unknown")].

Definition cfg_no_project : settings :=
  {| PROJECT_ID := None; ZONE := "us-central1-a"; REGION := "us-central1" |}.

Definition service_without_containers : service :=
  {| svc_name := "projects/demo-project/locations/us-central1/services/api-svc";
     template := {| scaling_max_instance_count := 10; containers := [] |} |}.

Definition gcp_no_containers : cloud :=
  {| cloud_operation := fun _ _ => Ok op_demo;
     cloud_service := fun _ _ => Ok service_without_containers;
     cloud_wait := fun _ _ => Ok tt;
     compute_has_wait := true |}.

(** The service as the last update that returned left it. *)
Fixpoint last_update (h : history) (current : service) : service :=
  match h with
  | [] => current
  | (UpdateService svc _, None) :: h' => last_update h' svc
  | _ :: h' => last_update h' current
  end.

(** Every call returns, and [get_service] returns what was last sent. *)
Definition gcp_store : cloud :=
  {| cloud_operation := fun _ _ => Ok op_demo;
     cloud_service := fun h _ => Ok (last_update h (service_with 10));
     cloud_wait := fun _ _ => Ok tt;
     compute_has_wait := true |}.

Definition get_request : http_request :=
  {| method := "GET"; get_json := Raise (MkExn "BadRequest" "400 Bad Request") |}.

Definition post_empty_object : http_request :=
  {| method := "POST"; get_json := Ok (VDict []) |}.

Definition post_list : http_request :=
  {| method := "POST"; get_json := Ok (VList [VInt 1]) |}.

(* ===================================================================== *)
(** * Properties *)

(** ** Strings *)

Lemma prefix_app (p s : string) :
  prefix p s = true <-> exists post, s = p ++ post.
Proof.
  revert s. induction p as [|a p IH]; intros s; simpl.
  - split; [intros _; now exists s | now destruct s].
  - destruct s as [|b s]; simpl.
    + split; [discriminate | intros [post H]; discriminate].
    + destruct (ascii_dec a b) as [->|Hab].
      * rewrite IH. split; intros [post H]; exists post.
        -- now subst.
        -- now injection H.
      * split; [discriminate | intros [post H]; injection H; congruence].
Qed.

Lemma str_in_app (needle hay : string) :
  str_in needle hay = true <-> exists pre post, hay = pre ++ needle ++ post.
Proof.
  induction hay as [|c hay IH]; cbn [str_in].
  - rewrite orb_false_r, prefix_app. split.
    + intros [post H]. now exists "", post.
    + intros [pre [post H]]. destruct pre; [now exists post | discriminate].
  - rewrite orb_true_iff, prefix_app, IH. split.
    + intros [[post H] | [pre [post H]]].
      * now exists "", post.
      * exists (String c pre), post. simpl. now rewrite H.
    + intros [pre [post H]]. destruct pre as [|c' pre]; simpl in H.
      * left. now exists post.
      * right. injection H as _ H. now exists pre, post.
Qed.

Lemma str_lower_app (a b : string) :
  str_lower (a ++ b) = str_lower a ++ str_lower b.
Proof. induction a as [|c a IH]; simpl; [reflexivity | now rewrite IH]. Qed.

Lemma str_lower_split (s x y : string) :
  str_lower s = x ++ y ->
  exists s1 s2, s = s1 ++ s2 /\ str_lower s1 = x /\ str_lower s2 = y.
Proof.
  revert s. induction x as [|c x IH]; intros s H; simpl in H.
  - now exists "", s.
  - destruct s as [|d s]; [discriminate|]. simpl in H.
    injection H as Hc H. destruct (IH _ H) as [s1 [s2 [-> [H1 H2]]]].
    exists (String d s1), s2. simpl. now rewrite Hc, H1.
Qed.

Lemma str_in_lower (needle s : string) :
  str_in needle (str_lower s) = true <-> ci_contains needle s.
Proof.
  rewrite str_in_app. unfold ci_contains. split.
  - intros [x [y H]].
    destruct (str_lower_split _ _ _ H) as [pre [rest [-> [_ H2]]]].
    destruct (str_lower_split _ _ _ H2) as [mid [post [-> [H3 _]]]].
    now exists pre, mid, post.
  - intros [pre [mid [post [-> H]]]].
    exists (str_lower pre), (str_lower post).
    now rewrite !str_lower_app, H.
Qed.

Lemma str_in_lower_false (needle s : string) :
  str_in needle (str_lower s) = false <-> ~ ci_contains needle s.
Proof.
  rewrite <- str_in_lower. destruct (str_in needle (str_lower s)); split; congruence.
Qed.

(** ** Classifier *)

(** One branch of the cascade: each clause of the statement either names
    the category reached or has a premise the branch refutes. *)
Ltac first_match :=
  repeat split; intros; try reflexivity; try contradiction;
  try (exfalso; eauto; fail); tauto.

(** C2. [classify_alert] lower-cases the condition display name and tests
    it in the fixed order cpu, error / 5xx, memory, uptime / availability;
    the first test that finds its word decides the category, and the
    category is unknown when none does.  A name holding "cpu" in any
    mixture of cases is high_cpu whatever else it holds. *)
Theorem classify_alert_priority (alert_data incident : value) (condition_name : string) :
  py_get alert_data "incident" (VDict []) = Ok incident ->
  py_get incident "condition_display_name" (VStr "") = Ok (VStr condition_name) ->
  exists category,
    classify_alert alert_data = Ok category /\
    (ci_contains "cpu" condition_name -> category = "high_cpu") /\
    (~ ci_contains "cpu" condition_name ->
     ci_contains "error" condition_name \/ ci_contains "5xx" condition_name ->
     category = "error_rate_spike") /\
    (~ ci_contains "cpu" condition_name ->
     ~ ci_contains "error" condition_name -> ~ ci_contains "5xx" condition_name ->
     ci_contains "memory" condition_name ->
     category = "memory_leak") /\
    (~ ci_contains "cpu" condition_name ->
     ~ ci_contains "error" condition_name -> ~ ci_contains "5xx" condition_name ->
     ~ ci_contains "memory" condition_name ->
     ci_contains "uptime" condition_name \/ ci_contains "availability" condition_name ->
     category = "service_down") /\
    (~ ci_contains "cpu" condition_name ->
     ~ ci_contains "error" condition_name -> ~ ci_contains "5xx" condition_name ->
     ~ ci_contains "memory" condition_name ->
     ~ ci_contains "uptime" condition_name ->
     ~ ci_contains "availability" condition_name ->
     category = "unknown") /\
    (forall pre mid post,
        In mid ["cpu"; "cpU"; "cPu"; "cPU"; "Cpu"; "CpU"; "CPu"; "CPU"] ->
        condition_name = pre ++ mid ++ post ->
        category = "high_cpu").
Proof.
  intros Hinc Hname.
  assert (Hvar : forall pre mid post,
             In mid ["cpu"; "cpU"; "cPu"; "cPU"; "Cpu"; "CpU"; "CPu"; "CPU"] ->
             condition_name = pre ++ mid ++ post ->
             ci_contains "cpu" condition_name).
  { intros pre mid post Hin ->. exists pre, mid, post. split; [reflexivity|].
    cbn [In] in Hin. repeat (destruct Hin as [<-|Hin]; [reflexivity|]).
    contradiction. }
  unfold classify_alert.
  rewrite Hinc. cbn [rbind]. rewrite Hname. cbn [rbind py_lower].
  eexists. split; [reflexivity|].
  destruct (str_in "cpu" (str_lower condition_name)) eqn:Ecpu.
  { apply str_in_lower in Ecpu. repeat split; intros; try reflexivity; contradiction. }
  apply str_in_lower_false in Ecpu.
  assert (Hnovar : forall pre mid post,
             In mid ["cpu"; "cpU"; "cPu"; "cPU"; "Cpu"; "CpU"; "CPu"; "CPU"] ->
             condition_name = pre ++ mid ++ post -> False).
  { intros pre mid post Hin Heq. apply Ecpu. eapply Hvar; eassumption. }
  destruct (str_in "error" (str_lower condition_name)) eqn:Eerr.
  { apply str_in_lower in Eerr. cbn [orb]. first_match. }
  apply str_in_lower_false in Eerr.
  destruct (str_in "5xx" (str_lower condition_name)) eqn:E5.
  { apply str_in_lower in E5. cbn [orb]. first_match. }
  apply str_in_lower_false in E5. cbn [orb].
  destruct (str_in "memory" (str_lower condition_name)) eqn:Emem.
  { apply str_in_lower in Emem. first_match. }
  apply str_in_lower_false in Emem.
  destruct (str_in "uptime" (str_lower condition_name)) eqn:Eup.
  { apply str_in_lower in Eup. cbn [orb]. first_match. }
  apply str_in_lower_false in Eup.
  destruct (str_in "availability" (str_lower condition_name)) eqn:Eav.
  { apply str_in_lower in Eav. cbn [orb]. first_match. }
  apply str_in_lower_false in Eav. cbn [orb]. first_match.
Qed.

Lemma classify_alert_priority_witness :
  classify_alert alert_cpu_and_errors = Ok "high_cpu".
Proof.
  destruct (classify_alert_priority alert_cpu_and_errors
              (VDict [("condition_display_name",
                       VStr "Memory errors with high Cpu load")])
              "Memory errors with high Cpu load" eq_refl eq_refl)
    as [category [Hrun [Hcpu _]]].
  rewrite Hrun. f_equal. apply Hcpu.
  exists "Memory errors with high ", "Cpu", " load". split; reflexivity.
Defined.

Example classify_5xx :
  classify_alert
    (VDict [("incident", VDict [("condition_display_name", VStr "Error rate 5xx spike")])])
  = Ok "error_rate_spike".
Proof. reflexivity. Qed.

Example classify_uptime :
  classify_alert
    (VDict [("incident", VDict [("condition_display_name", VStr "UPTIME check failed")])])
  = Ok "service_down".
Proof. reflexivity. Qed.

(** C7, as stated, fails: a condition display name that is present but
    null makes [classify_alert] raise. *)
Lemma classify_alert_raises_on_null_name :
  classify_alert alert_null_condition_name
  = Raise (MkExn "AttributeError" "'NoneType' object has no attribute 'lower'")
  /\ ~ (exists category, classify_alert alert_null_condition_name = Ok category).
Proof.
  split; [reflexivity|]. intros [category H]. discriminate H.
Qed.

Lemma classify_alert_raises (alert_data : value) :
  well_formed_incident alert_data = false ->
  exists e, classify_alert alert_data = Raise e /\ exn_class e = "AttributeError".
Proof.
  unfold well_formed_incident, classify_alert, py_get, dict_get_default.
  destruct alert_data as [| | | | |l|d]; try discriminate;
    try (intros _; eexists; split; reflexivity).
  destruct (dict_get d "incident") as [[| | | | |l|inc]|]; try discriminate;
    try (intros _; eexists; split; reflexivity).
  cbn beta iota delta [rbind].
  destruct (dict_get inc "condition_display_name") as [[| | | | |l|inc']|];
    try discriminate; intros _; eexists; split; reflexivity.
Qed.

(** C7, amended.  On a payload that is a mapping whose incident, when
    present, is a mapping and whose condition display name, when present,
    is a string, [classify_alert] returns one of the five categories; when
    the incident or the condition display name is absent, it returns
    unknown. *)
Theorem classify_alert_degrades (alert_data : value) :
  well_formed_incident alert_data = true ->
  exists category,
    classify_alert alert_data = Ok category /\
    In category ["high_cpu"; "error_rate_spike"; "memory_leak"; "service_down"; "unknown"] /\
    (condition_display_name_of alert_data = None -> category = "unknown").
Proof.
  unfold well_formed_incident, condition_display_name_of, classify_alert,
    py_get, dict_get_default.
  destruct alert_data as [| | | | |l|d]; try discriminate.
  destruct (dict_get d "incident") as [[| | | | |l|inc]|]; try discriminate;
    cbn beta iota delta [rbind].
  - destruct (dict_get inc "condition_display_name") as [[| | | |s|l|inc']|];
      try discriminate; intros _; cbn [rbind py_lower].
    + eexists. split; [reflexivity|]. split; [|discriminate].
      destruct (str_in "cpu" (str_lower s)); [simpl; tauto|].
      destruct (str_in "error" (str_lower s) || str_in "5xx" (str_lower s));
        [simpl; tauto|].
      destruct (str_in "memory" (str_lower s)); [simpl; tauto|].
      destruct (str_in "uptime" (str_lower s) || str_in "availability" (str_lower s));
        simpl; tauto.
    + exists "unknown". split; [reflexivity|]. split; [simpl; tauto | reflexivity].
  - intros _. exists "unknown". split; [reflexivity|]. split; [simpl; tauto | reflexivity].
Qed.

Lemma classify_alert_degrades_witness :
  classify_alert alert_without_incident = Ok "unknown".
Proof.
  destruct (classify_alert_degrades alert_without_incident eq_refl)
    as [category [Hrun [_ Habsent]]].
  rewrite Hrun. f_equal. apply Habsent. reflexivity.
Defined.

(** ** Resource extractor *)

(** C6, as stated, fails: labels that are present but null make
    [extract_resource_info] raise, and an empty service-name label is
    returned as the name. *)
Lemma extract_resource_info_not_total :
  extract_resource_info alert_null_labels
  = Raise (MkExn "AttributeError" "'NoneType' object has no attribute 'get'")
  /\ extract_resource_info alert_empty_service_name
     = Ok [("type", VStr "cloud_run_revision");
           ("labels", VDict [("service_name", VStr "")]);
           ("name", VStr "")].
Proof. split; reflexivity. Qed.

(** C6, amended.  On a payload that is a mapping whose incident, resource
    and labels, where present, are mappings, [extract_resource_info]
    returns a descriptor with the three fields type, labels and name: the
    type is "unknown" when absent, the labels are the empty map when
    absent, the name is the instance-name label when that is truthy, else
    the service-name label when that is truthy, else "unknown" when there
    is no service-name label; in each of these cases the name is not empty
    or absent. *)
Theorem extract_resource_info_defaults (d incident resource labels : pydict) :
  dict_get_default d "incident" (VDict []) = VDict incident ->
  dict_get_default incident "resource" (VDict []) = VDict resource ->
  dict_get_default resource "labels" (VDict []) = VDict labels ->
  exists ty name,
    extract_resource_info (VDict d)
    = Ok [("type", ty); ("labels", VDict labels); ("name", name)] /\
    (dict_get resource "type" = None -> ty = VStr "unknown") /\
    (forall v, dict_get resource "type" = Some v -> ty = v) /\
    (dict_get resource "labels" = None -> labels = []) /\
    (forall v, dict_get labels "instance_name" = Some v -> truthy v = true ->
               name = v) /\
    (forall v, unusable labels "instance_name" ->
               dict_get labels "service_name" = Some v -> truthy v = true ->
               name = v) /\
    (unusable labels "instance_name" -> dict_get labels "service_name" = None ->
     name = VStr "unknown") /\
    ((forall v, dict_get labels "service_name" = Some v -> truthy v = true) ->
     truthy name = true /\ name <> VStr "" /\ name <> VNone).
Proof.
  intros Hinc Hres Hlab. unfold extract_resource_info, py_get.
  rewrite Hinc. cbn [rbind]. rewrite Hres. cbn [rbind]. rewrite Hlab. cbn [rbind].
  unfold unusable, dict_get_default in *.
  assert (Hnonempty : forall v, truthy v = true -> v <> VStr "" /\ v <> VNone).
  { intros v Hv. split; intros ->; discriminate Hv. }
  assert (Hsvc : (forall v, dict_get labels "service_name" = Some v -> truthy v = true) ->
                 truthy match dict_get labels "service_name" with
                        | Some v => v
                        | None => VStr "unknown"
                        end = true).
  { intros H. destruct (dict_get labels "service_name") as [v|];
      [now apply H | reflexivity]. }
  destruct (dict_get labels "instance_name") as [inst|] eqn:Einst;
    [destruct (truthy inst) eqn:Etr|]; cbn [truthy rbind];
    (eexists _, _; split; [reflexivity|]);
    repeat split; intros;
    try (apply Hnonempty; auto; fail); auto;
    repeat match goal with
           | H : forall v, Some ?i = Some v -> _ |- _ => specialize (H i eq_refl)
           | H : Some _ = Some _ |- _ => injection H as H; subst
           | H : dict_get _ _ = None |- _ => rewrite H in *
           | H : dict_get _ _ = Some _ |- _ => rewrite H in *
           end;
    congruence.
Qed.

Lemma extract_resource_info_defaults_witness :
  extract_resource_info (VDict alert_web_1)
  = Ok [("type", VStr "gce_instance");
        ("labels", VDict [("instance_name", VStr "web-1")]);
        ("name", VStr "web-1")].
Proof.
  destruct (extract_resource_info_defaults alert_web_1
              [("condition_display_name", VStr "CPU utilization above threshold");
               ("resource",
                VDict [("type", VStr "gce_instance");
                       ("labels", VDict [("instance_name", VStr "web-1")])])]
              [("type", VStr "gce_instance");
               ("labels", VDict [("instance_name", VStr "web-1")])]
              [("instance_name", VStr "web-1")]
              eq_refl eq_refl eq_refl)
    as [ty [name [Hrun [_ [Hty [_ [Hname _]]]]]]].
  rewrite Hrun.
  rewrite (Hty (VStr "gce_instance") eq_refl).
  rewrite (Hname (VStr "web-1") eq_refl eq_refl).
  reflexivity.
Defined.

Example extract_resource_info_empty_payload :
  extract_resource_info (VDict [])
  = Ok [("type", VStr "unknown"); ("labels", VDict []); ("name", VStr "unknown")].
Proof. reflexivity. Qed.

(* ===================================================================== *)
(** ** Decision engine and remediation actions *)

Lemma try_catch_total {A} (c : M A) (handler : exn -> A) (h : history) :
  exists a h', try_catch c (fun e => ret (handler e)) h = (Ok a, h').
Proof.
  unfold try_catch, ret. destruct (c h) as [[a|e] h']; eauto.
Qed.

(** C5, as stated, fails: an alert-only outcome has no status field, so
    its status is not skipped. *)
Lemma alert_only_has_no_status :
  exists outcome,
    handle_unknown_alert [("type", VStr "gce_instance")] (VDict []) []
    = (Ok outcome, []) /\
    dict_get outcome "action" = Some (VStr "alert_only") /\
    dict_get outcome "status" = None /\
    status_of outcome <> VStr "skipped".
Proof.
  eexists. split; [reflexivity|]. repeat split. discriminate.
Qed.

Section EngineProperties.

Variable repr_other : value -> string.
Variable cfg : settings.
Variable gcp : cloud.
Variable clock : history -> string.

Local Abbreviation restart_vm := (restart_vm_instance repr_other cfg gcp).
Local Abbreviation scale := (scale_cloud_run_service repr_other cfg gcp).
Local Abbreviation restart_service := (restart_cloud_run_service repr_other cfg gcp clock).
Local Abbreviation decide := (dispatch repr_other cfg gcp clock).
Local Abbreviation path_of := (service_path repr_other cfg).

(** C5, amended.  When the category is unknown, or the resource kind is
    neither gce_instance nor cloud_run_revision, the decision is
    alert_only: no call is made, the outcome carries a reason string and
    has no status field at all (so it is never failed). *)
Theorem dispatch_alert_only (alert_type : string) (resource_info : pydict)
        (alert_data : value) (h : history) :
  alert_type = "unknown" \/
  (eq_str (dict_get_default resource_info "type" VNone) "gce_instance" = false /\
   eq_str (dict_get_default resource_info "type" VNone) "cloud_run_revision" = false) ->
  exists outcome reason,
    decide alert_type resource_info alert_data h = (Ok outcome, h) /\
    dict_get outcome "action" = Some (VStr "alert_only") /\
    dict_get outcome "reason" = Some (VStr reason) /\
    dict_get outcome "status" = None /\
    status_of outcome <> VStr "failed".
Proof.
  intros [-> | [Hgce Hrun]].
  - do 2 eexists. split; [reflexivity|]. repeat split. discriminate.
  - unfold dispatch, recovery_actions, lookup_action.
    repeat match goal with
           | |- context [if ?k =? alert_type then _ else _] =>
               destruct (k =? alert_type)
           end;
      unfold handle_error_rate_spike, handle_memory_leak, handle_service_down,
        handle_high_cpu, handle_unknown_alert;
      rewrite ?Hgce, ?Hrun;
      (do 2 eexists; split; [reflexivity|]; repeat split; discriminate).
Qed.

(** *** Operation waiter *)

(** *** VmRestart *)

Local Abbreviation stop_request instance_name :=
  (StopInstance (PROJECT_ID cfg) (ZONE cfg) instance_name).
Local Abbreviation start_request instance_name :=
  (StartInstance (PROJECT_ID cfg) (ZONE cfg) instance_name).

Lemma wait_for_operation_call (op : operation) (operation_type : string)
      (project : option string) (zone : string) (h : history) :
  wait_for_operation gcp op operation_type project zone h
  = match wait_request gcp op project zone with
    | Some w => call (cloud_wait gcp) w h
    | None => (Raise (timed_out operation_type), h)
    end.
Proof.
  unfold wait_for_operation, wait_request, try_catch, raise, call.
  destruct (compute_has_wait gcp && truthy_opt project && truthy (VStr zone))%bool;
    destruct (op_name op) as [operation_name|];
    try destruct (op_has_result op);
    try reflexivity;
    match goal with
    | |- context [cloud_wait gcp h ?req] =>
        destruct (cloud_wait gcp h req) as [[]|e]; reflexivity
    end.
Qed.

Lemma wait_request_is_wait (op : operation) (project : option string)
      (zone : string) (w : request) :
  wait_request gcp op project zone = Some w -> is_wait w = true.
Proof.
  unfold wait_request.
  destruct (compute_has_wait gcp && truthy_opt project && truthy (VStr zone))%bool;
    destruct (op_name op); try destruct (op_has_result op);
    intros [=]; subst; reflexivity.
Qed.

(** The outcomes of [restart_vm_instance], step by step. *)
Lemma restart_vm_steps (instance_name : value) (h : history) :
  let stop := stop_request instance_name in
  let start := start_request instance_name in
  let failed e := [("action", VStr "vm_restart"); ("status", VStr "failed");
                   ("instance", instance_name); ("error", VStr (str_exn e))] in
  let success := [("action", VStr "vm_restart"); ("status", VStr "success");
                  ("instance", instance_name);
                  ("message", VStr ("Successfully restarted VM instance "
                                    ++ py_str repr_other instance_name))] in
  match cloud_operation gcp h stop with
  | Raise e => restart_vm instance_name h = (Ok (failed e), (h ++ [(stop, Some e)])%list)
  | Ok stop_operation =>
      match wait_request gcp stop_operation (PROJECT_ID cfg) (ZONE cfg) with
      | None => restart_vm instance_name h
                = (Ok (failed (timed_out "stop")), (h ++ [(stop, None)])%list)
      | Some w1 =>
          match cloud_wait gcp (h ++ [(stop, None)])%list w1 with
          | Raise e => restart_vm instance_name h
                       = (Ok (failed e), (h ++ [(stop, None); (w1, Some e)])%list)
          | Ok _ =>
              match cloud_operation gcp (h ++ [(stop, None); (w1, None)])%list start with
              | Raise e =>
                  restart_vm instance_name h
                  = (Ok (failed e),
                     (h ++ [(stop, None); (w1, None); (start, Some e)])%list)
              | Ok start_operation =>
                  match wait_request gcp start_operation (PROJECT_ID cfg) (ZONE cfg) with
                  | None =>
                      restart_vm instance_name h
                      = (Ok (failed (timed_out "start")),
                         (h ++ [(stop, None); (w1, None); (start, None)])%list)
                  | Some w2 =>
                      match cloud_wait gcp
                              (h ++ [(stop, None); (w1, None); (start, None)])%list w2
                      with
                      | Raise e =>
                          restart_vm instance_name h
                          = (Ok (failed e),
                             (h ++ [(stop, None); (w1, None); (start, None);
                                    (w2, Some e)])%list)
                      | Ok _ =>
                          restart_vm instance_name h
                          = (Ok success,
                             (h ++ [(stop, None); (w1, None); (start, None);
                                    (w2, None)])%list)
                      end
                  end
              end
          end
      end
  end.
Proof.
  cbv zeta.
  destruct (cloud_operation gcp h (stop_request instance_name)) as [op1|e0] eqn:E1.
  2: { unfold restart_vm_instance, try_catch, bind, call. now rewrite E1. }
  destruct (wait_request gcp op1 (PROJECT_ID cfg) (ZONE cfg)) as [w1|] eqn:Ew1.
  2: { unfold restart_vm_instance, try_catch, bind, call. rewrite E1. cbn [err_of].
       rewrite wait_for_operation_call, Ew1. reflexivity. }
  destruct (cloud_wait gcp (h ++ [(stop_request instance_name, None)])%list w1)
    as [[]|e1] eqn:E2.
  2: { unfold restart_vm_instance, try_catch, bind, call. rewrite E1. cbn [err_of].
       rewrite wait_for_operation_call, Ew1. unfold call. rewrite E2. cbn [err_of].
       unfold ret. now rewrite <- app_assoc. }
  destruct (cloud_operation gcp _ (start_request instance_name)) as [op2|e2] eqn:E3.
  2: { unfold restart_vm_instance, try_catch, bind, call. rewrite E1. cbn [err_of].
       rewrite wait_for_operation_call, Ew1. unfold call. rewrite E2. cbn [err_of].
       rewrite <- ?app_assoc. cbn [app]. unfold event in *. rewrite E3. cbn [err_of].
       unfold ret. now rewrite <- ?app_assoc. }
  destruct (wait_request gcp op2 (PROJECT_ID cfg) (ZONE cfg)) as [w2|] eqn:Ew2.
  2: { unfold restart_vm_instance, try_catch, bind, call. rewrite E1. cbn [err_of].
       rewrite wait_for_operation_call, Ew1. unfold call. rewrite E2. cbn [err_of].
       rewrite <- ?app_assoc. cbn [app]. unfold event in *. rewrite E3. cbn [err_of].
       rewrite wait_for_operation_call, Ew2. unfold ret.
       now rewrite <- ?app_assoc. }
  destruct (cloud_wait gcp _ w2) as [[]|e3] eqn:E4;
    unfold restart_vm_instance, try_catch, bind, call; rewrite E1; cbn [err_of];
    rewrite wait_for_operation_call, Ew1; unfold call; rewrite E2; cbn [err_of];
    rewrite <- ?app_assoc; cbn [app]; unfold event in *; rewrite E3; cbn [err_of];
    rewrite wait_for_operation_call, Ew2; unfold call;
    rewrite <- ?app_assoc; cbn [app]; unfold event in *; rewrite E4; cbn [err_of]; unfold ret;
    now rewrite <- ?app_assoc.
Qed.


(** The clauses of the report on [restart_vm_instance], at one explicit
    outcome and trace. *)
Ltac vm_raised :=
  intros ev e Hin Hsnd; cbn [In] in Hin;
  repeat (destruct Hin as [<-|Hin];
          [cbn in Hsnd; try discriminate Hsnd;
           injection Hsnd as <-; split; reflexivity|]);
  contradiction.

Ltac vm_forced :=
  intros stop_operation w1' start_operation w2' G1 G2 G3 G4 G5 G6;
  first [reflexivity | exfalso; congruence].

Ltac vm_stop_wait_fails Ew E :=
  intros stop_operation h1 e H1 H2 H3;
  injection H1 as <-;
  rewrite wait_for_operation_call, Ew in H2;
  first [discriminate H2
        | unfold call in H2; rewrite E in H2; discriminate H2].

Ltac vm_start_after_stop Ew E2 E3 :=
  intros stop_operation h1 e H1 H2 H3;
  injection H1 as <-;
  rewrite wait_for_operation_call, Ew in H2;
  unfold call in H2; rewrite E2 in H2;
  cbn [err_of] in H2; injection H2 as <-;
  rewrite <- app_assoc in H3; cbn [app] in H3;
  rewrite E3 in H3;
  first [discriminate H3
        | injection H3 as <-;
          repeat split; rewrite <- ?app_assoc; reflexivity].

Lemma wait_request_awaits (op : operation) (project : option string)
      (zone : string) (w : request) :
  wait_request gcp op project zone = Some w -> awaits w op.
Proof.
  unfold wait_request.
  destruct (compute_has_wait gcp && truthy_opt project && truthy (VStr zone))%bool;
    destruct (op_name op) eqn:E; try destruct (op_has_result op);
    intros [=]; subst; cbn; congruence.
Qed.

Lemma wait_request_none (op : operation) (project : option string) (zone : string) :
  op_has_result op = false ->
  (compute_has_wait gcp && truthy_opt project && truthy (VStr zone))%bool = false
  \/ op_name op = None ->
  wait_request gcp op project zone = None.
Proof.
  unfold wait_request. intros -> [-> | ->]; [reflexivity|].
  now destruct (compute_has_wait gcp && truthy_opt project && truthy (VStr zone))%bool.
Qed.

(** C4.  [restart_vm_instance] never raises: it returns one outcome,
    success or failed.  Success is reported exactly when the four calls
    were made in this order and all returned: the stop, the wait for the
    operation the stop returned, the start, the wait for the operation the
    start returned.  In every other case the outcome is failed and carries
    the text of the exception that ended the action: the one raised by
    the last call made, or the time-out of the waiter when the operation
    just issued offers no way of waiting.  In particular a start that
    raises after stop and its wait returned gives failed, with no further
    call. *)
Theorem restart_vm_instance_outcome (instance_name : value) (h : history) :
  exists outcome evs,
    restart_vm instance_name h = (Ok outcome, (h ++ evs)%list) /\
    action_of outcome = VStr "vm_restart" /\
    (status_of outcome = VStr "success" \/ status_of outcome = VStr "failed") /\
    (status_of outcome = VStr "success" ->
     exists stop_operation w1 start_operation w2,
       cloud_operation gcp h (stop_request instance_name) = Ok stop_operation /\
       awaits w1 stop_operation /\
       wait_request gcp stop_operation (PROJECT_ID cfg) (ZONE cfg) = Some w1 /\
       cloud_wait gcp (h ++ [(stop_request instance_name, None)])%list w1 = Ok tt /\
       cloud_operation gcp (h ++ [(stop_request instance_name, None); (w1, None)])%list
                       (start_request instance_name) = Ok start_operation /\
       awaits w2 start_operation /\
       wait_request gcp start_operation (PROJECT_ID cfg) (ZONE cfg) = Some w2 /\
       cloud_wait gcp (h ++ [(stop_request instance_name, None); (w1, None);
                             (start_request instance_name, None)])%list w2 = Ok tt /\
       is_wait w1 = true /\ is_wait w2 = true /\
       evs = [(stop_request instance_name, None); (w1, None);
              (start_request instance_name, None); (w2, None)] /\
       dict_get outcome "message"
       = Some (VStr ("Successfully restarted VM instance "
                     ++ py_str repr_other instance_name))) /\
    (forall stop_operation w1 start_operation w2,
        cloud_operation gcp h (stop_request instance_name) = Ok stop_operation ->
        wait_request gcp stop_operation (PROJECT_ID cfg) (ZONE cfg) = Some w1 ->
        cloud_wait gcp (h ++ [(stop_request instance_name, None)])%list w1 = Ok tt ->
        cloud_operation gcp (h ++ [(stop_request instance_name, None); (w1, None)])%list
                        (start_request instance_name) = Ok start_operation ->
        wait_request gcp start_operation (PROJECT_ID cfg) (ZONE cfg) = Some w2 ->
        cloud_wait gcp (h ++ [(stop_request instance_name, None); (w1, None);
                              (start_request instance_name, None)])%list w2 = Ok tt ->
        status_of outcome = VStr "success") /\
    (status_of outcome = VStr "failed" ->
     exists e,
       dict_get outcome "error" = Some (VStr (str_exn e)) /\
       dict_get outcome "message" = None /\
       ((exists pre req, evs = (pre ++ [(req, Some e)])%list) \/
        (e = timed_out "stop" /\ evs = [(stop_request instance_name, None)]) \/
        (exists w1, e = timed_out "start" /\
                    evs = [(stop_request instance_name, None); (w1, None);
                           (start_request instance_name, None)]))) /\
    (forall ev e, In ev evs -> snd ev = Some e ->
                  status_of outcome = VStr "failed" /\
                  dict_get outcome "error" = Some (VStr (str_exn e))) /\
    (forall stop_operation h1 e,
        cloud_operation gcp h (stop_request instance_name) = Ok stop_operation ->
        wait_for_operation gcp stop_operation "stop" (PROJECT_ID cfg) (ZONE cfg)
                           (h ++ [(stop_request instance_name, None)])%list
        = (Ok tt, h1) ->
        cloud_operation gcp h1 (start_request instance_name) = Raise e ->
        status_of outcome = VStr "failed" /\
        dict_get outcome "error" = Some (VStr (str_exn e)) /\
        (h ++ evs)%list = (h1 ++ [(start_request instance_name, Some e)])%list) /\
    (forall stop_operation,
        cloud_operation gcp h (stop_request instance_name) = Ok stop_operation ->
        op_has_result stop_operation = false ->
        (compute_has_wait gcp && truthy_opt (PROJECT_ID cfg)
         && truthy (VStr (ZONE cfg)))%bool = false
        \/ op_name stop_operation = None ->
        status_of outcome = VStr "failed" /\
        dict_get outcome "error"
        = Some (VStr "Operation stop timed out after 300 seconds") /\
        evs = [(stop_request instance_name, None)]).
Proof.
  pose proof (restart_vm_steps instance_name h) as Hsteps. cbv zeta in Hsteps.
  unfold history, event in *.
  destruct (cloud_operation gcp h (stop_request instance_name)) as [op1|e0] eqn:E1.
  2: { eexists _, _. split; [exact Hsteps|]. split; [reflexivity|].
       split; [right; reflexivity|]. split; [intros H; discriminate H|].
       split; [vm_forced|].
       split; [intros _; exists e0; split; [reflexivity|]; split; [reflexivity|];
               left; exists []; eexists; reflexivity|].
       split; [vm_raised|].
       split; [intros ? ? ? H; discriminate H | intros ? H; discriminate H]. }
  assert (Hfallback : forall stop_operation,
             Ok op1 = Ok stop_operation ->
             op_has_result stop_operation = false ->
             (compute_has_wait gcp && truthy_opt (PROJECT_ID cfg)
              && truthy (VStr (ZONE cfg)))%bool = false
             \/ op_name stop_operation = None ->
             wait_request gcp op1 (PROJECT_ID cfg) (ZONE cfg) = None).
  { intros stop_operation [= <-] H2 H3. now apply wait_request_none. }
  destruct (wait_request gcp op1 (PROJECT_ID cfg) (ZONE cfg)) as [w1|] eqn:Ew1.
  2: { eexists _, _. split; [exact Hsteps|]. split; [reflexivity|].
       split; [right; reflexivity|]. split; [intros H; discriminate H|].
       split; [vm_forced|].
       split; [intros _; exists (timed_out "stop"); split; [reflexivity|];
               split; [reflexivity|]; right; left; split; reflexivity|].
       split; [vm_raised|].
       split; [vm_stop_wait_fails Ew1 Ew1 | intros; repeat split]. }
  assert (Hno : forall stop_operation,
             Ok op1 = Ok stop_operation ->
             op_has_result stop_operation = false ->
             (compute_has_wait gcp && truthy_opt (PROJECT_ID cfg)
              && truthy (VStr (ZONE cfg)))%bool = false
             \/ op_name stop_operation = None -> False).
  { intros stop_operation H1 H2 H3. specialize (Hfallback _ H1 H2 H3).
    discriminate Hfallback. }
  destruct (cloud_wait gcp (h ++ [(stop_request instance_name, None)])%list w1)
    as [[]|e1] eqn:E2.
  2: { eexists _, _. split; [exact Hsteps|]. split; [reflexivity|].
       split; [right; reflexivity|]. split; [intros H; discriminate H|].
       split; [vm_forced|].
       split; [intros _; exists e1; split; [reflexivity|]; split; [reflexivity|];
               left; exists [(stop_request instance_name, None)]; eexists;
               reflexivity|].
       split; [vm_raised|].
       split; [vm_stop_wait_fails Ew1 E2 | intros ? H1 H2 H3; destruct (Hno _ H1 H2 H3)]. }
  destruct (cloud_operation gcp
              (h ++ [(stop_request instance_name, None); (w1, None)])%list
              (start_request instance_name)) as [op2|e2] eqn:E3.
  2: { eexists _, _. split; [exact Hsteps|]. split; [reflexivity|].
       split; [right; reflexivity|]. split; [intros H; discriminate H|].
       split; [vm_forced|].
       split; [intros _; exists e2; split; [reflexivity|]; split; [reflexivity|];
               left; exists [(stop_request instance_name, None); (w1, None)]; eexists;
               reflexivity|].
       split; [vm_raised|].
       split; [vm_start_after_stop Ew1 E2 E3 | intros ? H1 H2 H3; destruct (Hno _ H1 H2 H3)]. }
  destruct (wait_request gcp op2 (PROJECT_ID cfg) (ZONE cfg)) as [w2|] eqn:Ew2.
  2: { eexists _, _. split; [exact Hsteps|]. split; [reflexivity|].
       split; [right; reflexivity|]. split; [intros H; discriminate H|].
       split; [vm_forced|].
       split; [intros _; exists (timed_out "start"); split; [reflexivity|];
               split; [reflexivity|]; right; right; exists w1; split; reflexivity|].
       split; [vm_raised|].
       split; [vm_start_after_stop Ew1 E2 E3 | intros ? H1 H2 H3; destruct (Hno _ H1 H2 H3)]. }
  destruct (cloud_wait gcp
              (h ++ [(stop_request instance_name, None); (w1, None);
                     (start_request instance_name, None)])%list w2)
    as [[]|e3] eqn:E4.
  - eexists _, _. split; [exact Hsteps|]. split; [reflexivity|].
    split; [left; reflexivity|].
    split.
    { intros _. exists op1, w1, op2, w2.
      split; [reflexivity|]. split; [now apply wait_request_awaits in Ew1|].
      split; [exact Ew1|]. split; [exact E2|]. split; [exact E3|].
      split; [now apply wait_request_awaits in Ew2|].
      split; [exact Ew2|]. split; [exact E4|].
      split; [now apply wait_request_is_wait in Ew1|].
      split; [now apply wait_request_is_wait in Ew2|].
      split; reflexivity. }
    split; [vm_forced|].
    split; [intros H; discriminate H|].
    split; [vm_raised|].
    split; [vm_start_after_stop Ew1 E2 E3 | intros ? H1 H2 H3; destruct (Hno _ H1 H2 H3)].
  - eexists _, _. split; [exact Hsteps|]. split; [reflexivity|].
    split; [right; reflexivity|]. split; [intros H; discriminate H|].
    split; [vm_forced|].
    split; [intros _; exists e3; split; [reflexivity|]; split; [reflexivity|];
            left; exists [(stop_request instance_name, None); (w1, None);
                          (start_request instance_name, None)]; eexists;
            reflexivity|].
    split; [vm_raised|].
    split; [vm_start_after_stop Ew1 E2 E3 | intros ? H1 H2 H3; destruct (Hno _ H1 H2 H3)].
Qed.

(** *** ServiceScale *)

Local Abbreviation ceiling svc := (scaling_max_instance_count (template svc)).

Local Abbreviation scaling_update service_name new_max_instances :=
  (UpdateService
     {| svc_name := path_of service_name;
        template := {| scaling_max_instance_count := new_max_instances;
                       containers := [] |} |}
     "template.scaling.max_instance_count").





(** *** ServiceRestart and the escalation *)

Lemma eq_str_true (v : value) (s : string) :
  eq_str v s = true <-> v = VStr s.
Proof.
  destruct v; cbn; try (split; [discriminate | intros [=]]).
  rewrite String.eqb_eq. split; [intros -> | intros [=]]; congruence.
Qed.

Lemma app_cons_neq {A} (h l : list A) (x : A) : (h ++ x :: l)%list <> h.
Proof.
  intros H. apply (f_equal (@length A)) in H.
  rewrite length_app in H. cbn in H. lia.
Qed.

Lemma scale_total (service_name : value) (h : history) :
  exists outcome r evs,
    scale service_name h
    = (Ok outcome, (h ++ (GetService (path_of service_name), r) :: evs)%list) /\
    action_of outcome = VStr "cloud_run_scale" /\
    (status_of outcome = VStr "success" \/ status_of outcome = VStr "skipped"
     \/ status_of outcome = VStr "failed").
Proof.
  unfold scale_cloud_run_service, operation_result.
  unfold try_catch, bind, call, ret, raise.
  destruct (cloud_service gcp h _) as [svc|e0]; cbn [err_of].
  2: { eexists _, _, []. repeat split. tauto. }
  match goal with |- context [(?a >? ?b)%Z] => destruct (a >? b)%Z end.
  2: { eexists _, _, []. repeat split. tauto. }
  match goal with
  | |- context [cloud_operation gcp ?hh ?rq] =>
      destruct (cloud_operation gcp hh rq) as [op|e1]
  end; cbn [err_of].
  2: { rewrite <- ?app_assoc; cbn [app]. eexists _, _, _. repeat split. tauto. }
  destruct (op_has_result op).
  2: { rewrite <- ?app_assoc; cbn [app]. eexists _, _, _. repeat split. tauto. }
  match goal with
  | |- context [cloud_wait gcp ?hh ?rq] =>
      destruct (cloud_wait gcp hh rq) as [[]|e2]
  end; cbn [err_of]; rewrite <- ?app_assoc; cbn [app];
    eexists _, _, _; repeat split; tauto.
Qed.

Lemma update_restart_timestamp_run (vars : list env_var) (h : history) :
  exists r evs,
    update_restart_timestamp clock vars h = (Ok r, (h ++ evs)%list).
Proof.
  induction vars as [|v vars IH]; cbn [update_restart_timestamp].
  - exists ([], false), []. unfold ret. now rewrite app_nil_r.
  - destruct (ev_name v =? "RESTART_TIMESTAMP").
    + unfold bind, utcnow_isoformat, ret. eexists _, _. reflexivity.
    + destruct IH as [r [evs IH]]. unfold bind, ret. rewrite IH.
      eexists _, _. reflexivity.
Qed.

Lemma restart_service_total (service_name : value) (h : history) :
  exists outcome r evs,
    restart_service service_name h
    = (Ok outcome, (h ++ (GetService (path_of service_name), r) :: evs)%list) /\
    action_of outcome = VStr "cloud_run_restart" /\
    (status_of outcome = VStr "success" \/ status_of outcome = VStr "failed").
Proof.
  unfold restart_cloud_run_service, operation_result.
  unfold try_catch, bind at 1, call at 1.
  destruct (cloud_service gcp h _) as [svc|e0]; cbn [err_of].
  2: { eexists _, _, []. repeat split. tauto. }
  destruct (containers (template svc)) as [|container0 others].
  { unfold raise. eexists _, _, []. repeat split. tauto. }
  unfold bind at 1.
  destruct (update_restart_timestamp_run (c_env container0)
              (h ++ [(GetService (path_of service_name), None)])%list)
    as [[vars found] [evs1 ->]].
  cbn [fst snd]. unfold bind at 1.
  assert (Hvars : exists vars' evs2,
             (if found then ret vars
              else now <- utcnow_isoformat clock ;;
                   ret (vars ++ [EnvVar "RESTART_TIMESTAMP" now])%list)
               ((h ++ [(GetService (path_of service_name), None)]) ++ evs1)%list
             = (Ok vars', (h ++ (GetService (path_of service_name), None)
                             :: evs2)%list)).
  { destruct found; unfold bind, utcnow_isoformat, ret;
      rewrite <- ?app_assoc; cbn [app]; eexists _, _; reflexivity. }
  destruct Hvars as [vars' [evs2 ->]].
  unfold bind, call, ret, raise.
  match goal with
  | |- context [cloud_operation gcp ?hh ?rq] =>
      destruct (cloud_operation gcp hh rq) as [op|e1]
  end; cbn [err_of].
  2: { rewrite <- ?app_assoc; cbn [app]. eexists _, _, _. repeat split. tauto. }
  destruct (op_has_result op).
  2: { rewrite <- ?app_assoc; cbn [app]. eexists _, _, _. repeat split. tauto. }
  match goal with
  | |- context [cloud_wait gcp ?hh ?rq] =>
      destruct (cloud_wait gcp hh rq) as [[]|e2]
  end; cbn [err_of]; rewrite <- ?app_assoc; cbn [app];
    eexists _, _, _; repeat split; tauto.
Qed.

(** C1.  On a cloud_run_revision resource [handle_error_rate_spike]
    first runs [scale_cloud_run_service].  When the scale outcome's
    status is success, that outcome is returned and the history is the
    one the scale left (a restart would have added to it).  When it is
    anything else (skipped or failed), [restart_cloud_run_service] runs
    next and its outcome is the one returned. *)
Theorem handle_error_rate_spike_escalates (resource_info : pydict)
        (alert_data : value) (h : history) :
  eq_str (dict_get_default resource_info "type" VNone) "cloud_run_revision" = true ->
  let resource_name := dict_get_default resource_info "name" VNone in
  exists scale_outcome evs1,
    scale resource_name h = (Ok scale_outcome, (h ++ evs1)%list) /\
    action_of scale_outcome = VStr "cloud_run_scale" /\
    (status_of scale_outcome = VStr "success"
     \/ status_of scale_outcome = VStr "skipped"
     \/ status_of scale_outcome = VStr "failed") /\
    (status_of scale_outcome = VStr "success" ->
     handle_error_rate_spike repr_other cfg gcp clock resource_info alert_data h
     = (Ok scale_outcome, (h ++ evs1)%list) /\
     forall r h2, restart_service resource_name (h ++ evs1)%list = (r, h2) ->
                  h2 <> (h ++ evs1)%list) /\
    (status_of scale_outcome <> VStr "success" ->
     exists restart_outcome evs2,
       evs2 <> [] /\
       restart_service resource_name (h ++ evs1)%list
       = (Ok restart_outcome, ((h ++ evs1) ++ evs2)%list) /\
       handle_error_rate_spike repr_other cfg gcp clock resource_info alert_data h
       = (Ok restart_outcome, ((h ++ evs1) ++ evs2)%list) /\
       action_of restart_outcome = VStr "cloud_run_restart").
Proof.
  intros Htype resource_name.
  destruct (scale_total resource_name h) as [so [r1 [evs1 [Hscale [Hact Hst]]]]].
  destruct (restart_service_total resource_name
              (h ++ (GetService (path_of resource_name), r1) :: evs1)%list)
    as [ro [r2 [evs2 [Hrestart [Hact2 _]]]]].
  exists so, ((GetService (path_of resource_name), r1) :: evs1).
  split; [exact Hscale|]. split; [exact Hact|]. split; [exact Hst|].
  unfold handle_error_rate_spike. rewrite Htype. fold resource_name.
  unfold bind. rewrite Hscale. split.
  - intros Hs. apply eq_str_true in Hs. rewrite Hs. cbn [negb]. split; [reflexivity|].
    intros r h2 Hrun. rewrite Hrestart in Hrun. injection Hrun as _ <-.
    apply app_cons_neq.
  - intros Hs.
    destruct (eq_str (status_of so) "success") eqn:E.
    { apply eq_str_true in E. contradiction. }
    cbn [negb]. exists ro, ((GetService (path_of resource_name), r2) :: evs2).
    split; [discriminate|]. now rewrite Hrestart.
Qed.

(** *** Outcomes of the dispatch *)

Lemma returns_only_ret {A} (a : A) (P : A -> Prop) :
  P a -> returns_only (ret a) P.
Proof. intros Ha h a' h' [= <- _]. exact Ha. Qed.

Lemma returns_only_raise {A} (e : exn) (P : A -> Prop) :
  returns_only (raise e) P.
Proof. intros h a h' H. discriminate H. Qed.

Lemma returns_only_bind {A B} (c : M A) (k : A -> M B) (P : B -> Prop) :
  (forall a, returns_only (k a) P) -> returns_only (bind c k) P.
Proof.
  intros Hk h b h'. unfold bind.
  destruct (c h) as [[a|e] h1]; [apply Hk | discriminate].
Qed.

Lemma try_catch_returns {A} (c : M A) (handler : exn -> A) (P : A -> Prop) :
  returns_only c P -> (forall e, P (handler e)) ->
  forall h, exists a h', try_catch c (fun e => ret (handler e)) h = (Ok a, h') /\ P a.
Proof.
  intros Hc Hh h. unfold try_catch, ret.
  destruct (c h) as [[a|e] h'] eqn:E; eauto.
Qed.

Ltac returns_only_body :=
  repeat first
    [ progress cbv zeta
    | apply returns_only_bind; intro
    | apply returns_only_raise
    | apply returns_only_ret
    | match goal with
      | |- returns_only (if ?b then _ else _) _ => destruct b
      | |- returns_only (match ?x with _ => _ end) _ => destruct x
      end ].

Ltac known a := exists a; split; [reflexivity | cbn; tauto].

Lemma restart_vm_total (instance_name : value) (h : history) :
  exists outcome h',
    restart_vm instance_name h = (Ok outcome, h') /\ known_action outcome.
Proof.
  apply try_catch_returns.
  - returns_only_body. known "vm_restart".
  - intros e. known "vm_restart".
Qed.

Lemma scale_known (service_name : value) (h : history) :
  exists outcome h',
    scale service_name h = (Ok outcome, h') /\ known_action outcome.
Proof.
  apply try_catch_returns.
  - returns_only_body; known "cloud_run_scale".
  - intros e. known "cloud_run_scale".
Qed.

Lemma restart_service_known (service_name : value) (h : history) :
  exists outcome h',
    restart_service service_name h = (Ok outcome, h') /\ known_action outcome.
Proof.
  apply try_catch_returns.
  - returns_only_body; known "cloud_run_restart".
  - intros e. known "cloud_run_restart".
Qed.

Lemma handle_service_down_total (resource_info : pydict) (alert_data : value)
      (h : history) :
  exists outcome h',
    handle_service_down repr_other cfg gcp clock resource_info alert_data h
    = (Ok outcome, h') /\ known_action outcome.
Proof.
  unfold handle_service_down.
  destruct (eq_str _ "gce_instance"); [apply restart_vm_total|].
  destruct (eq_str _ "cloud_run_revision"); [apply restart_service_known|].
  do 2 eexists. split; [reflexivity|]. known "alert_only".
Qed.

Lemma dispatch_total (alert_type : string) (resource_info : pydict)
      (alert_data : value) (h : history) :
  exists outcome h',
    decide alert_type resource_info alert_data h = (Ok outcome, h') /\
    known_action outcome.
Proof.
  unfold dispatch, recovery_actions, lookup_action.
  repeat match goal with
         | |- context [if ?k =? alert_type then _ else _] =>
             destruct (k =? alert_type)
         end.
  - unfold handle_high_cpu.
    destruct (eq_str _ "gce_instance"); [apply restart_vm_total|].
    destruct (eq_str _ "cloud_run_revision"); [apply scale_known|].
    do 2 eexists. split; [reflexivity|]. known "alert_only".
  - apply handle_service_down_total.
  - apply handle_service_down_total.
  - unfold handle_error_rate_spike.
    destruct (eq_str _ "cloud_run_revision"); [|apply handle_service_down_total].
    unfold bind.
    destruct (scale_known (dict_get_default resource_info "name" VNone) h)
      as [so [h1 [-> Hknown]]].
    destruct (negb _); [apply restart_service_known|].
    do 2 eexists. split; [reflexivity | exact Hknown].
  - do 2 eexists. split; [reflexivity|]. known "alert_only".
Qed.

(** *** Reporting and the processing boundary *)

Section Reporting.

Variable ncfg : notify_settings.
Variable sink : history -> request -> completion unit.
Variable format_notification_message :
  history -> string -> pydict -> pydict -> completion string.

Local Abbreviation log_action := (log_healing_action clock sink).
Local Abbreviation notify :=
  (send_notification ncfg sink format_notification_message).
Local Abbreviation process :=
  (process_alert repr_other cfg gcp clock ncfg sink format_notification_message).

Lemma log_healing_action_run (alert_type : string)
      (resource_info outcome : pydict) (h : history) :
  exists r,
    log_action alert_type resource_info outcome h
    = (Ok tt,
       (h ++ [(UtcNow, None);
              (LogWrite
                 [("timestamp", VStr (clock h));
                  ("alert_type", VStr alert_type);
                  ("resource", VDict resource_info);
                  ("action_result", VDict outcome);
                  ("severity",
                   VStr (if eq_str (status_of outcome) "success"
                         then "INFO" else "ERROR"))], r)])%list).
Proof.
  unfold log_healing_action, try_catch, bind, utcnow_isoformat, call, ret.
  match goal with
  | |- context [sink ?hh ?rq] => destruct (sink hh rq) as [[]|e]
  end; cbn [err_of]; rewrite <- ?app_assoc; cbn [app]; eexists; reflexivity.
Qed.

Lemma send_slack_notification_run (message : string) (h : history) :
  exists r,
    send_slack_notification ncfg sink message h
    = (Ok tt, (h ++ [(SlackPost (SLACK_WEBHOOK_URL ncfg) message, r)])%list).
Proof.
  unfold send_slack_notification, try_catch, call, ret.
  destruct (sink h _) as [[]|e]; cbn [err_of]; eexists; reflexivity.
Qed.

Lemma send_email_notification_run (message alert_type : string) (h : history) :
  exists evs,
    send_email_notification ncfg sink message alert_type h
    = (Ok tt, (h ++ evs)%list) /\
    Forall (fun ev => is_email_post ev = true) evs /\
    (truthy_opt (SENDGRID_API_KEY ncfg) = false \/ NOTIFICATION_EMAIL ncfg = "" ->
     evs = []).
Proof.
  unfold send_email_notification.
  destruct (truthy_opt (SENDGRID_API_KEY ncfg)) eqn:Ekey; cbn [negb orb].
  2: { exists []. unfold ret. rewrite app_nil_r. repeat split. constructor. }
  destruct (truthy (VStr (NOTIFICATION_EMAIL ncfg))) eqn:Eto; cbn [negb].
  2: { exists []. unfold ret. rewrite app_nil_r. repeat split. constructor. }
  unfold try_catch, call, ret.
  destruct (sink h _) as [[]|e]; cbn [err_of]; eexists; (split; [reflexivity|]);
    (split; [repeat constructor|]);
    (intros [H|H]; [discriminate H | rewrite H in Eto; discriminate Eto]).
Qed.

Lemma send_notification_run (alert_type : string)
      (resource_info outcome : pydict) (h : history) :
  exists reads evs,
    notify alert_type resource_info outcome h = (Ok tt, (h ++ reads ++ evs)%list) /\
    ((reads = [] /\ evs = [] /\
      exists e, format_notification_message h alert_type resource_info outcome
                = Raise e) \/
     (reads = [(UtcNow, None)] /\
      exists message, format_notification_message h alert_type resource_info outcome
                      = Ok message)) /\
    Forall (fun ev => (is_slack_post ev || is_email_post ev)%bool = true) evs /\
    (truthy_opt (SLACK_WEBHOOK_URL ncfg) = false ->
     Forall (fun ev => is_slack_post ev = false) (reads ++ evs)) /\
    (truthy_opt (SENDGRID_API_KEY ncfg) = false \/ NOTIFICATION_EMAIL ncfg = "" ->
     Forall (fun ev => is_email_post ev = false) (reads ++ evs)).
Proof.
  unfold send_notification, try_catch. unfold bind at 1.
  destruct (format_notification_message h alert_type resource_info outcome)
    as [message|e].
  2: { exists [], []. unfold ret. cbn [app]. rewrite app_nil_r.
       split; [reflexivity|]. split; [left; eauto|]. repeat split; constructor. }
  set (h0 := (h ++ [(UtcNow, None)])%list).
  assert (Hslack : exists evs1,
             (if truthy_opt (SLACK_WEBHOOK_URL ncfg)
              then send_slack_notification ncfg sink message else ret tt) h0
             = (Ok tt, (h0 ++ evs1)%list) /\
             Forall (fun ev => is_slack_post ev = true) evs1 /\
             (truthy_opt (SLACK_WEBHOOK_URL ncfg) = false -> evs1 = [])).
  { destruct (truthy_opt (SLACK_WEBHOOK_URL ncfg)).
    - destruct (send_slack_notification_run message h0) as [r ->].
      eexists. split; [reflexivity|]. split; [repeat constructor | discriminate].
    - exists []. unfold ret. rewrite app_nil_r. repeat split. constructor. }
  destruct Hslack as [evs1 [Hrun1 [Hall1 Hoff1]]].
  unfold bind. rewrite Hrun1.
  assert (Hemail : exists evs2,
             (if (truthy_opt (SENDGRID_API_KEY ncfg)
                  && truthy (VStr (NOTIFICATION_EMAIL ncfg)))%bool
              then send_email_notification ncfg sink message alert_type
              else ret tt) (h0 ++ evs1)%list
             = (Ok tt, ((h0 ++ evs1) ++ evs2)%list) /\
             Forall (fun ev => is_email_post ev = true) evs2 /\
             (truthy_opt (SENDGRID_API_KEY ncfg) = false
              \/ NOTIFICATION_EMAIL ncfg = "" -> evs2 = [])).
  { destruct (truthy_opt (SENDGRID_API_KEY ncfg)
              && truthy (VStr (NOTIFICATION_EMAIL ncfg)))%bool eqn:E.
    - apply send_email_notification_run.
    - exists []. unfold ret. rewrite app_nil_r. repeat split. constructor. }
  destruct Hemail as [evs2 [Hrun2 [Hall2 Hoff2]]].
  rewrite Hrun2. exists [(UtcNow, None)], (evs1 ++ evs2)%list.
  unfold h0. rewrite <- !app_assoc.
  split; [reflexivity|]. split; [right; eauto|]. repeat split.
  - apply Forall_app. split; eapply Forall_impl; try eassumption;
      cbn beta; intros ev ->; [reflexivity | apply orb_true_r].
  - intros Hoff. rewrite (Hoff1 Hoff). cbn [app].
    apply Forall_cons; [reflexivity|].
    eapply Forall_impl; [|exact Hall2].
    intros [[] ?]; cbn; congruence.
  - intros Hoff. rewrite (Hoff2 Hoff), app_nil_r. cbn [app].
    apply Forall_cons; [reflexivity|].
    eapply Forall_impl; [|exact Hall1].
    intros [[] ?]; cbn; congruence.
Qed.

Lemma process_alert_run (alert_data : value) (h : history) :
  (exists e,
      pipeline_raises alert_data e /\
      process alert_data h
      = (Ok (error_result e (clock h)), (h ++ [(UtcNow, None)])%list)) \/
  (exists alert_type resource_info outcome h1 r reads evs,
      classify_alert alert_data = Ok alert_type /\
      extract_resource_info alert_data = Ok resource_info /\
      decide alert_type resource_info alert_data h = (Ok outcome, h1) /\
      known_action outcome /\
      (reads = [] /\ evs = [] \/ reads = [(UtcNow, None)]) /\
      Forall (fun ev => (is_slack_post ev || is_email_post ev)%bool = true) evs /\
      let log_entry :=
        [("timestamp", VStr (clock h1));
         ("alert_type", VStr alert_type);
         ("resource", VDict resource_info);
         ("action_result", VDict outcome);
         ("severity", VStr (if eq_str (status_of outcome) "success"
                            then "INFO" else "ERROR"))] in
      let h2 := (h1 ++ (UtcNow, None) :: (LogWrite log_entry, r) :: reads ++ evs)%list in
      process alert_data h
      = (Ok (success_result alert_type resource_info outcome (clock h2)),
         (h2 ++ [(UtcNow, None)])%list) /\
      (reads = [] <->
       exists e,
         format_notification_message
           (h1 ++ [(UtcNow, None); (LogWrite log_entry, r)])%list
           alert_type resource_info outcome = Raise e)).
Proof.
  unfold process_alert, try_catch, bind, lift.
  destruct (classify_alert alert_data) as [alert_type|e] eqn:Ecl; cbv beta iota.
  2: { left. exists e. split; [now left | reflexivity]. }
  destruct (extract_resource_info alert_data) as [resource_info|e] eqn:Eex;
    cbv beta iota.
  2: { left. exists e. split; [right; now exists alert_type | reflexivity]. }
  right.
  destruct (dispatch_total alert_type resource_info alert_data h)
    as [outcome [h1 [Hrun Hknown]]].
  rewrite Hrun. cbv beta iota.
  destruct (log_healing_action_run alert_type resource_info outcome h1) as [r ->].
  cbv beta iota.
  destruct (send_notification_run alert_type resource_info outcome
              (h1 ++ [(UtcNow, None); (LogWrite
                 [("timestamp", VStr (clock h1));
                  ("alert_type", VStr alert_type);
                  ("resource", VDict resource_info);
                  ("action_result", VDict outcome);
                  ("severity",
                   VStr (if eq_str (status_of outcome) "success"
                         then "INFO" else "ERROR"))], r)])%list)
    as [reads [evs [-> [Hreads [Hall _]]]]].
  cbv beta iota.
  unfold bind, utcnow_isoformat, ret.
  exists alert_type, resource_info, outcome, h1, r, reads, evs.
  repeat (split; [assumption || reflexivity|]).
  split; [destruct Hreads as [[-> [-> _]] | [-> _]]; auto|].
  split; [assumption|].
  cbv zeta. split.
  - rewrite <- !app_assoc. cbn [app]. rewrite <- ?app_assoc. reflexivity.
  - destruct Hreads as [[-> [-> Hfmt]] | [-> [message Hfmt]]].
    + split; [intros _; exact Hfmt | reflexivity].
    + split; [discriminate|]. intros [e He]. rewrite He in Hfmt. discriminate Hfmt.
Qed.

(** C8.  [process_alert] never raises.  An exception raised in the
    pipeline (by the classifier or by the extractor) is turned into the
    result with the three fields status = error, error = the text of
    the exception, timestamp; otherwise the result has the five fields
    status = success, alert_type, resource, action_taken, timestamp. *)
Theorem process_alert_never_raises (alert_data : value) (h : history) :
  exists res h',
    process alert_data h = (Ok res, h') /\
    ((exists e now,
         pipeline_raises alert_data e /\
         res = [("status", VStr "error");
                ("error", VStr (str_exn e));
                ("timestamp", VStr now)]) \/
     (exists alert_type resource_info action now,
         classify_alert alert_data = Ok alert_type /\
         extract_resource_info alert_data = Ok resource_info /\
         res = [("status", VStr "success");
                ("alert_type", VStr alert_type);
                ("resource", VDict resource_info);
                ("action_taken", VStr action);
                ("timestamp", VStr now)])).
Proof.
  destruct (process_alert_run alert_data h)
    as [[e [Hraise Hrun]]
       | [alert_type [resource_info [outcome [h1 [r [reads [evs
           [Hcl [Hex [Hdec [[a [Ha _]] [_ [_ Hrun]]]]]]]]]]]]]].
  - do 2 eexists. split; [exact Hrun|]. left. now exists e, (clock h).
  - cbv zeta in Hrun. destruct Hrun as [Hrun _]. do 2 eexists. split; [exact Hrun|]. right.
    exists alert_type, resource_info, a. eexists.
    repeat (split; [assumption|]).
    unfold success_result, dict_get_default. now rewrite Ha.
Qed.

(** C10.  When the pipeline does not raise and the remediation action
    returns an outcome whose status is failed, [process_alert] returns
    status = success at the top level, with action_taken the name of
    the action; the failed outcome is what the log entry written on
    the way (severity ERROR) carries. *)
Theorem failed_remediation_reports_success (alert_data : value)
        (alert_type : string) (resource_info outcome : pydict)
        (h h1 : history) :
  classify_alert alert_data = Ok alert_type ->
  extract_resource_info alert_data = Ok resource_info ->
  decide alert_type resource_info alert_data h = (Ok outcome, h1) ->
  status_of outcome = VStr "failed" ->
  exists h' now log_entry r,
    process alert_data h
    = (Ok [("status", VStr "success");
           ("alert_type", VStr alert_type);
           ("resource", VDict resource_info);
           ("action_taken", action_of outcome);
           ("timestamp", VStr now)], h') /\
    In (LogWrite log_entry, r) h' /\
    dict_get log_entry "action_result" = Some (VDict outcome) /\
    dict_get log_entry "severity" = Some (VStr "ERROR").
Proof.
  intros Hcl Hex Hdec Hfailed.
  destruct (process_alert_run alert_data h)
    as [[e [[Hraise | [alert_type' [_ Hraise]]] _]]
       | [alert_type' [resource_info' [outcome' [h1' [r [reads [evs
           [Hcl' [Hex' [Hdec' [[a [Ha _]] [_ [_ Hrun]]]]]]]]]]]]]]; try congruence.
  assert (alert_type' = alert_type) by congruence. subst alert_type'.
  assert (resource_info' = resource_info) by congruence. subst resource_info'.
  rewrite Hdec in Hdec'. injection Hdec' as <- <-.
  cbv zeta in Hrun. destruct Hrun as [Hrun _].
  rewrite Hfailed in Hrun. cbn [eq_str String.eqb] in Hrun.
  do 4 eexists. split; [|split; [|split]].
  - rewrite Hrun. unfold success_result, action_of, dict_get_default.
    rewrite Ha. reflexivity.
  - apply in_or_app. left. apply in_or_app. right. right. left. reflexivity.
  - reflexivity.
  - reflexivity.
Qed.

End Reporting.

Lemma pipeline_raises_unique (alert_data : value) (e1 e2 : exn) :
  pipeline_raises alert_data e1 -> pipeline_raises alert_data e2 -> e1 = e2.
Proof.
  intros [H1 | [a1 [Ha1 H1]]] [H2 | [a2 [Ha2 H2]]]; congruence.
Qed.

(** C9.  Logging and notification are best effort.  Whatever the sinks
    do (return or raise), whatever the report formatter does and however
    the sinks are configured, [log_healing_action],
    [send_notification], [send_slack_notification] and
    [send_email_notification] return normally, and [process_alert]
    returns the same result: two runs that differ only in the reporting
    side agree on every field but the clock reading taken at return, and
    are equal when that reading is the same.  A sink that is not
    configured is not called. *)
Theorem reporting_is_fire_and_forget
        (ncfg1 ncfg2 : notify_settings)
        (sink1 sink2 : history -> request -> completion unit)
        (fmt1 fmt2 : history -> string -> pydict -> pydict -> completion string)
        (alert_data : value) (h : history) :
  (exists res1 h1 res2 h2,
      process_alert repr_other cfg gcp clock ncfg1 sink1 fmt1 alert_data h
      = (Ok res1, h1) /\
      process_alert repr_other cfg gcp clock ncfg2 sink2 fmt2 alert_data h
      = (Ok res2, h2) /\
      without_timestamp res1 = without_timestamp res2 /\
      (dict_get res1 "timestamp" = dict_get res2 "timestamp" -> res1 = res2)) /\
  (forall alert_type resource_info outcome h0, exists evs,
      log_healing_action clock sink1 alert_type resource_info outcome h0
      = (Ok tt, (h0 ++ evs)%list)) /\
  (forall alert_type resource_info outcome h0, exists evs,
      send_notification ncfg1 sink1 fmt1 alert_type resource_info outcome h0
      = (Ok tt, (h0 ++ evs)%list) /\
      (truthy_opt (SLACK_WEBHOOK_URL ncfg1) = false ->
       Forall (fun ev => is_slack_post ev = false) evs) /\
      (truthy_opt (SENDGRID_API_KEY ncfg1) = false \/ NOTIFICATION_EMAIL ncfg1 = "" ->
       Forall (fun ev => is_email_post ev = false) evs)) /\
  (forall message h0, exists h',
      send_slack_notification ncfg1 sink1 message h0 = (Ok tt, h')) /\
  (forall message alert_type h0, exists h',
      send_email_notification ncfg1 sink1 message alert_type h0 = (Ok tt, h')).
Proof.
  split; [|split; [|split; [|split]]].
  - destruct (process_alert_run ncfg1 sink1 fmt1 alert_data h)
      as [[e1 [Hraise1 Hrun1]]
         | [at1 [ri1 [o1 [ha [r1 [reads1 [evs1
             [Hcl1 [Hex1 [Hdec1 [_ [_ [_ Hrun1]]]]]]]]]]]]]];
      destruct (process_alert_run ncfg2 sink2 fmt2 alert_data h)
      as [[e2 [Hraise2 Hrun2]]
         | [at2 [ri2 [o2 [hb [r2 [reads2 [evs2
             [Hcl2 [Hex2 [Hdec2 [_ [_ [_ Hrun2]]]]]]]]]]]]]];
      cbv zeta in *.
    + rewrite (pipeline_raises_unique _ _ _ Hraise1 Hraise2) in Hrun1.
      do 4 eexists. split; [exact Hrun1|]. split; [exact Hrun2|]. split; reflexivity.
    + exfalso. destruct Hraise1 as [H | [a [_ H]]]; congruence.
    + exfalso. destruct Hraise2 as [H | [a [_ H]]]; congruence.
    + assert (at2 = at1) by congruence. subst at2.
      assert (ri2 = ri1) by congruence. subst ri2.
      rewrite Hdec1 in Hdec2. injection Hdec2 as <- <-.
      destruct Hrun1 as [Hrun1 _]. destruct Hrun2 as [Hrun2 _].
      do 4 eexists. split; [exact Hrun1|]. split; [exact Hrun2|].
      split; [reflexivity|].
      cbn. intros [= ->]. reflexivity.
  - intros alert_type resource_info outcome h0.
    destruct (log_healing_action_run sink1 alert_type resource_info outcome h0)
      as [r ->].
    eexists. reflexivity.
  - intros alert_type resource_info outcome h0.
    destruct (send_notification_run ncfg1 sink1 fmt1 alert_type resource_info
                outcome h0) as [reads [evs [Hrun [_ [_ [Hslack Hemail]]]]]].
    exists (reads ++ evs)%list. auto.
  - intros message h0.
    destruct (send_slack_notification_run ncfg1 sink1 message h0) as [r ->].
    eexists. reflexivity.
  - intros message alert_type h0.
    destruct (send_email_notification_run ncfg1 sink1 message alert_type h0)
      as [evs [-> _]].
    eexists. reflexivity.
Qed.

End EngineProperties.

(* ===================================================================== *)
(** ** The properties on sample runs *)

Lemma handle_error_rate_spike_escalates_witness :
  exists restart_outcome h',
    handle_error_rate_spike repr_demo cfg_demo (gcp_healthy 50) clock_demo
                            api_svc_info (VDict []) []
    = (Ok restart_outcome, h') /\
    action_of restart_outcome = VStr "cloud_run_restart".
Proof.
  destruct (handle_error_rate_spike_escalates repr_demo cfg_demo (gcp_healthy 50)
              clock_demo api_svc_info (VDict []) [] eq_refl)
    as [scale_outcome [evs1 [Hscale [_ [_ [_ Hescalate]]]]]].
  vm_compute in Hscale. injection Hscale as <- <-.
  destruct Hescalate as [restart_outcome [evs2 [_ [_ [Hrun Haction]]]]].
  - vm_compute. discriminate.
  - eauto.
Defined.


Lemma restart_vm_instance_outcome_witness :
  exists outcome h',
    restart_vm_instance repr_demo cfg_demo gcp_start_fails (VStr "web-1") []
    = (Ok outcome, h') /\
    status_of outcome = VStr "failed" /\
    dict_get outcome "error" = Some (VStr "503 start failed").
Proof.
  destruct (restart_vm_instance_outcome repr_demo cfg_demo gcp_start_fails
              (VStr "web-1") [])
    as [outcome [evs [Hrun [_ [_ [_ [_ [_ [_ [Hstart _]]]]]]]]]].
  destruct (Hstart op_demo
              [(StopInstance (Some "demo-project") "us-central1-a" (VStr "web-1"), None);
               (WaitZoneOperation "operation-1" (Some "demo-project") "us-central1-a",
                None)]
              start_failure eq_refl eq_refl eq_refl)
    as [Hfailed [Herror _]].
  exists outcome, ([] ++ evs)%list. auto.
Defined.

Lemma dispatch_alert_only_witness :
  exists outcome reason,
    dispatch repr_demo cfg_demo (gcp_healthy 10) clock_demo
             "high_cpu" database_info (VDict []) []
    = (Ok outcome, []) /\
    dict_get outcome "action" = Some (VStr "alert_only") /\
    dict_get outcome "reason" = Some (VStr reason) /\
    dict_get outcome "status" = None.
Proof.
  destruct (dispatch_alert_only repr_demo cfg_demo (gcp_healthy 10) clock_demo
              "high_cpu" database_info (VDict []) []
              (or_intror (conj eq_refl eq_refl)))
    as [outcome [reason [Hrun [Haction [Hreason [Hstatus _]]]]]].
  exists outcome, reason. auto.
Defined.

Lemma failed_remediation_reports_success_witness :
  exists h' now,
    process_alert repr_demo cfg_demo gcp_start_fails clock_demo
                  ncfg_demo sink_ok fmt_demo (VDict alert_web_1) []
    = (Ok [("status", VStr "success");
           ("alert_type", VStr "high_cpu");
           ("resource", VDict web_1_info);
           ("action_taken", VStr "vm_restart");
           ("timestamp", VStr now)], h').
Proof.
  destruct (failed_remediation_reports_success repr_demo cfg_demo gcp_start_fails
              clock_demo ncfg_demo sink_ok fmt_demo (VDict alert_web_1)
              "high_cpu" web_1_info
              [("action", VStr "vm_restart");
               ("status", VStr "failed");
               ("instance", VStr "web-1");
               ("error", VStr "503 start failed")]
              []
              [(StopInstance (Some "demo-project") "us-central1-a" (VStr "web-1"), None);
               (WaitZoneOperation "operation-1" (Some "demo-project") "us-central1-a",
                None);
               (StartInstance (Some "demo-project") "us-central1-a" (VStr "web-1"),
                Some start_failure)]
              eq_refl eq_refl eq_refl eq_refl)
    as [h' [now [log_entry [r [Hrun _]]]]].
  exists h', now. exact Hrun.
Defined.

(** Scenario: with every sink down the result is the one obtained with
    the sinks up. *)
Example sinks_down_same_result :
  fst (process_alert repr_demo cfg_demo (gcp_healthy 10) clock_demo
                     ncfg_demo sink_down fmt_demo (VDict alert_web_1) [])
  = fst (process_alert repr_demo cfg_demo (gcp_healthy 10) clock_demo
                       ncfg_off sink_ok fmt_demo (VDict alert_web_1) []).
Proof. reflexivity. Qed.

(** Scenario: a payload that is a list, not a mapping. *)
Example process_alert_on_list_payload :
  fst (process_alert repr_demo cfg_demo (gcp_healthy 10) clock_demo
                     ncfg_demo sink_ok fmt_demo (VList [VInt 1]) [])
  = Ok [("status", VStr "error");
        ("error", VStr "'list' object has no attribute 'get'");
        ("timestamp", VStr "2024-05-01T12:00:00")].
Proof. reflexivity. Qed.

(** Scenario: the ceiling is already 50, so the scale is skipped and the
    restart that follows is the outcome reported. *)
Example error_spike_at_cap_restarts :
  handle_error_rate_spike repr_demo cfg_demo (gcp_healthy 50) clock_demo
                          api_svc_info (VDict []) []
  = (Ok [("action", VStr "cloud_run_restart");
         ("status", VStr "success");
         ("service", VStr "api-svc");
         ("message",
          VStr "Successfully initiated restart (new revision deployment) for Cloud Run service api-svc")],
     [(GetService "projects/demo-project/locations/us-central1/services/api-svc", None);
      (GetService "projects/demo-project/locations/us-central1/services/api-svc", None);
      (UtcNow, None);
      (UpdateService
         {| svc_name := "projects/demo-project/locations/us-central1/services/api-svc";
            template :=
              {| scaling_max_instance_count := 50;
                 containers :=
                   [ {| c_env := [EnvVar "MODE" "prod";
                                  EnvVar "RESTART_TIMESTAMP" "2024-05-01T12:00:00"] |} ] |} |}
         "template", None);
      (OperationResult op_demo None, None)]).
Proof. reflexivity. Qed.

(** Scenario: a CPU alert on the instance web-1, every call returning. *)
Example cpu_alert_restarts_web_1 :
  fst (process_alert repr_demo cfg_demo (gcp_healthy 10) clock_demo
                     ncfg_demo sink_ok fmt_demo (VDict alert_web_1) [])
  = Ok [("status", VStr "success");
        ("alert_type", VStr "high_cpu");
        ("resource", VDict web_1_info);
        ("action_taken", VStr "vm_restart");
        ("timestamp", VStr "2024-05-01T12:00:00")].
Proof. reflexivity. Qed.

(* ===================================================================== *)
(** * Further properties of the engine *)

Section FurtherProperties.

Variable repr_other : value -> string.
Variable cfg : settings.
Variable gcp : cloud.
Variable clock : history -> string.

Local Abbreviation restart_vm := (restart_vm_instance repr_other cfg gcp).
Local Abbreviation scale := (scale_cloud_run_service repr_other cfg gcp).
Local Abbreviation restart_service := (restart_cloud_run_service repr_other cfg gcp clock).
Local Abbreviation decide := (dispatch repr_other cfg gcp clock).
Local Abbreviation path_of := (service_path repr_other cfg).
Local Abbreviation stop_request instance_name :=
  (StopInstance (PROJECT_ID cfg) (ZONE cfg) instance_name).
Local Abbreviation start_request instance_name :=
  (StartInstance (PROJECT_ID cfg) (ZONE cfg) instance_name).
Local Abbreviation ceiling svc := (scaling_max_instance_count (template svc)).
Local Abbreviation scaling_update service_name new_max_instances :=
  (UpdateService
     {| svc_name := path_of service_name;
        template := {| scaling_max_instance_count := new_max_instances;
                       containers := [] |} |}
     "template.scaling.max_instance_count").

(** ** Operation waiter *)

(** [wait_for_operation] makes at most one call, and which one is
    settled by the operation.  With a waiting client, a project, a zone
    and a named operation it is the zone wait for that name; otherwise,
    for an operation with a blocking result, it is that result with a
    time-out of 300; the completion of the call is the completion of the
    waiter.  An operation that offers neither way of waiting ends in the
    time-out exception without any call.  So the waiter returns normally
    only when the call was made, for this operation, and returned; when
    the call raises, the same exception is raised to the caller. *)
Theorem wait_for_operation_one_call (op : operation) (operation_type : string)
        (project : option string) (zone : string) (h : history) :
  exists r evs,
    wait_for_operation gcp op operation_type project zone h = (r, (h ++ evs)%list) /\
    (r = Ok tt -> exists w, is_wait w = true /\ evs = [(w, None)] /\
                            cloud_wait gcp h w = Ok tt /\ awaits w op) /\
    (forall e, r = Raise e ->
               (exists w, is_wait w = true /\ evs = [(w, Some e)] /\
                          cloud_wait gcp h w = Raise e /\ awaits w op) \/
               (evs = [] /\ e = timed_out operation_type /\
                wait_request gcp op project zone = None)) /\
    (forall operation_name,
        (compute_has_wait gcp && truthy_opt project && truthy (VStr zone))%bool = true ->
        op_name op = Some operation_name ->
        r = cloud_wait gcp h (WaitZoneOperation operation_name project zone) /\
        evs = [(WaitZoneOperation operation_name project zone, err_of r)]) /\
    ((compute_has_wait gcp && truthy_opt project && truthy (VStr zone))%bool = false
     \/ op_name op = None ->
     op_has_result op = true ->
     r = cloud_wait gcp h (OperationResult op (Some 300%Z)) /\
     evs = [(OperationResult op (Some 300%Z), err_of r)]) /\
    ((compute_has_wait gcp && truthy_opt project && truthy (VStr zone))%bool = false
     \/ op_name op = None ->
     op_has_result op = false ->
     r = Raise (timed_out operation_type) /\ evs = []).
Proof.
  rewrite wait_for_operation_call.
  assert (Hzone : forall operation_name,
             (compute_has_wait gcp && truthy_opt project && truthy (VStr zone))%bool
             = true ->
             op_name op = Some operation_name ->
             wait_request gcp op project zone
             = Some (WaitZoneOperation operation_name project zone)).
  { intros operation_name Hc Hn. unfold wait_request. now rewrite Hc, Hn. }
  assert (Hresult : (compute_has_wait gcp && truthy_opt project
                     && truthy (VStr zone))%bool = false
                    \/ op_name op = None ->
                    op_has_result op = true ->
                    wait_request gcp op project zone
                    = Some (OperationResult op (Some 300%Z))).
  { unfold wait_request. intros [-> | ->] ->; [reflexivity|].
    now destruct (compute_has_wait gcp && truthy_opt project
                  && truthy (VStr zone))%bool. }
  assert (Hnone : (compute_has_wait gcp && truthy_opt project
                   && truthy (VStr zone))%bool = false
                  \/ op_name op = None ->
                  op_has_result op = false ->
                  wait_request gcp op project zone = None).
  { intros Hc Hr. now apply wait_request_none. }
  destruct (wait_request gcp op project zone) as [w|] eqn:Ew.
  - pose proof (wait_request_is_wait _ _ _ _ _ Ew) as Hw.
    pose proof (wait_request_awaits _ _ _ _ _ Ew) as Hop.
    unfold call. exists (cloud_wait gcp h w), [(w, err_of (cloud_wait gcp h w))].
    split; [reflexivity|].
    split; [intros E; rewrite E; now exists w|].
    split; [intros e E; rewrite E; left; now exists w|].
    split; [intros operation_name Hc Hn; specialize (Hzone _ Hc Hn);
            injection Hzone as <-; split; reflexivity|].
    split; [intros Hc Hr; specialize (Hresult Hc Hr);
            injection Hresult as <-; split; reflexivity|].
    intros Hc Hr. specialize (Hnone Hc Hr). discriminate Hnone.
  - exists (Raise (timed_out operation_type)), []. rewrite app_nil_r.
    split; [reflexivity|]. split; [intros [=]|].
    split; [intros e [= <-]; right; auto|].
    split; [intros operation_name Hc Hn; specialize (Hzone _ Hc Hn);
            discriminate Hzone|].
    split; [intros Hc Hr; specialize (Hresult Hc Hr); discriminate Hresult|].
    intros _ _. split; reflexivity.
Qed.

(** ** VmRestart: the calls it makes *)

(** The traces of one [restart_vm_instance]. *)
Lemma restart_vm_shape (instance_name : value) (h : history) :
  exists outcome evs,
    restart_vm instance_name h = (Ok outcome, (h ++ evs)%list) /\
    ((exists e, evs = [(stop_request instance_name, Some e)]) \/
     (exists op, wait_request gcp op (PROJECT_ID cfg) (ZONE cfg) = None /\
                 evs = [(stop_request instance_name, None)]) \/
     (exists op w1 e,
         wait_request gcp op (PROJECT_ID cfg) (ZONE cfg) = Some w1 /\
         evs = [(stop_request instance_name, None); (w1, Some e)]) \/
     (exists op w1 r,
         wait_request gcp op (PROJECT_ID cfg) (ZONE cfg) = Some w1 /\
         evs = [(stop_request instance_name, None); (w1, None);
                (start_request instance_name, r)]) \/
     (exists op1 w1 op2 w2 r,
         wait_request gcp op1 (PROJECT_ID cfg) (ZONE cfg) = Some w1 /\
         wait_request gcp op2 (PROJECT_ID cfg) (ZONE cfg) = Some w2 /\
         evs = [(stop_request instance_name, None); (w1, None);
                (start_request instance_name, None); (w2, r)])).
Proof.
  unfold restart_vm_instance, try_catch, bind.
  unfold call at 1.
  destruct (cloud_operation gcp h (stop_request instance_name)) as [op1|e0];
    cbn [err_of].
  2: { unfold ret. eexists _, _. split; [reflexivity|]. left. eauto. }
  rewrite wait_for_operation_call.
  destruct (wait_request gcp op1 (PROJECT_ID cfg) (ZONE cfg)) as [w1|] eqn:Ew1.
  2: { unfold ret. eexists _, _. split; [reflexivity|]. right. left. eauto. }
  unfold call at 1.
  destruct (cloud_wait gcp _ w1) as [[]|e1]; cbn [err_of].
  2: { unfold ret. rewrite <- app_assoc. cbn [app].
       eexists _, _. split; [reflexivity|]. do 2 right. left. eauto. }
  unfold call at 1.
  destruct (cloud_operation gcp _ (start_request instance_name)) as [op2|e2];
    cbn [err_of].
  2: { unfold ret. rewrite <- !app_assoc. cbn [app].
       eexists _, _. split; [reflexivity|]. do 3 right. left. eauto. }
  rewrite wait_for_operation_call.
  destruct (wait_request gcp op2 (PROJECT_ID cfg) (ZONE cfg)) as [w2|] eqn:Ew2.
  2: { unfold ret. rewrite <- !app_assoc. cbn [app].
       eexists _, _. split; [reflexivity|]. do 3 right. left. eauto. }
  unfold call.
  destruct (cloud_wait gcp _ w2) as [[]|e3]; cbn [err_of]; unfold ret;
    rewrite <- !app_assoc; cbn [app];
    eexists _, _; (split; [reflexivity|]); do 4 right; eauto 10.
Qed.



Lemma wait_request_without_zone (op : operation) (w : request) :
  (compute_has_wait gcp && truthy_opt (PROJECT_ID cfg)
   && truthy (VStr (ZONE cfg)))%bool = false ->
  wait_request gcp op (PROJECT_ID cfg) (ZONE cfg) = Some w ->
  w = OperationResult op (Some 300%Z).
Proof.
  unfold wait_request. intros ->.
  destruct (op_has_result op); intros [=]. now subst.
Qed.

(** When the project id or the zone is not configured, or the compute
    client has no [wait] method, [restart_vm_instance] never uses the zone
    wait: every wait it makes is [operation.result] with the time-out of
    300 seconds. *)
Theorem restart_vm_without_zone_wait (instance_name : value) (h : history) :
  (compute_has_wait gcp && truthy_opt (PROJECT_ID cfg)
   && truthy (VStr (ZONE cfg)))%bool = false ->
  exists outcome evs,
    restart_vm instance_name h = (Ok outcome, (h ++ evs)%list) /\
    Forall (fun ev => is_zone_wait ev = false) evs /\
    (forall ev, In ev evs -> is_wait (fst ev) = true ->
                exists op, fst ev = OperationResult op (Some 300%Z)).
Proof.
  intros Hoff.
  destruct (restart_vm_shape instance_name h)
    as [outcome [evs [Hrun
         [[e ->] | [[op [_ ->]] | [[op [w1 [e [Hw1 ->]]]]
          | [[op [w1 [r [Hw1 ->]]]] | [op1 [w1 [op2 [w2 [r [Hw1 [Hw2 ->]]]]]]]]]]]]]];
    exists outcome; eexists; (split; [exact Hrun|]);
    try (apply (wait_request_without_zone _ _ Hoff) in Hw1; subst w1);
    try (apply (wait_request_without_zone _ _ Hoff) in Hw2; subst w2);
    (split; [repeat (apply Forall_cons; [reflexivity|]); apply Forall_nil|]);
    intros ev Hin Hwait; cbn [In] in Hin;
    repeat (destruct Hin as [<-|Hin];
            [cbn in Hwait |- *; try discriminate Hwait; eexists; reflexivity|]);
    contradiction.
Qed.

(** ** ServiceScale: the calls it makes *)

Lemma scale_shape (service_name : value) (h : history) :
  exists outcome evs,
    scale service_name h = (Ok outcome, (h ++ evs)%list) /\
    action_of outcome = VStr "cloud_run_scale" /\
    ((exists e, evs = [(GetService (path_of service_name), Some e)] /\
                status_of outcome = VStr "failed") \/
     (exists svc,
         cloud_service gcp h (GetService (path_of service_name)) = Ok svc /\
         let current := if (ceiling svc =? 0)%Z then 10%Z else ceiling svc in
         ((50 <= current)%Z /\
          evs = [(GetService (path_of service_name), None)] /\
          status_of outcome = VStr "skipped"
          \/
          (current < 50)%Z /\
          exists r rest,
            evs = ([(GetService (path_of service_name), None);
                    (scaling_update service_name (Z.min (current + 5) 50), r)]
                     ++ rest)%list /\
            (rest = [] /\ status_of outcome = VStr "failed"
             \/ exists op r2, r = None /\ rest = [(OperationResult op None, r2)] /\
                              (r2 = None -> status_of outcome = VStr "success") /\
                              (r2 <> None -> status_of outcome = VStr "failed"))))).
Proof.
  unfold scale_cloud_run_service, operation_result.
  unfold try_catch, bind, call, ret, raise.
  destruct (cloud_service gcp h _) as [svc|e0] eqn:Eget; cbn [err_of].
  2: { eexists _, _. split; [reflexivity|]. split; [reflexivity|]. left. eauto. }
  set (current := if (ceiling svc =? 0)%Z then 10%Z else ceiling svc).
  destruct (Z.gtb_spec (Z.min (current + 5) 50) current) as [Hgt|Hle].
  2: { eexists _, _. split; [reflexivity|]. split; [reflexivity|]. right.
       exists svc. split; [reflexivity|]. fold current. cbv zeta. left.
       repeat split. lia. }
  assert (Hlt : (current < 50)%Z) by lia.
  match goal with
  | |- context [cloud_operation gcp ?hh ?rq] =>
      destruct (cloud_operation gcp hh rq) as [op|e1]
  end; cbn [err_of].
  2: { rewrite <- ?app_assoc; cbn [app]. eexists _, _.
       split; [reflexivity|]. split; [reflexivity|]. right.
       exists svc. split; [reflexivity|]. fold current. cbv zeta. right.
       split; [exact Hlt|]. exists (Some e1), []. split; [reflexivity|]. left. auto. }
  destruct (op_has_result op).
  2: { rewrite <- ?app_assoc; cbn [app]. eexists _, _.
       split; [reflexivity|]. split; [reflexivity|]. right.
       exists svc. split; [reflexivity|]. fold current. cbv zeta. right.
       split; [exact Hlt|]. exists None, []. split; [reflexivity|]. left. auto. }
  match goal with
  | |- context [cloud_wait gcp ?hh ?rq] =>
      destruct (cloud_wait gcp hh rq) as [[]|e2]
  end; cbn [err_of]; rewrite <- ?app_assoc; cbn [app];
    eexists _, _; (split; [reflexivity|]); (split; [reflexivity|]); right;
    exists svc; (split; [reflexivity|]); fold current; cbv zeta; right;
    (split; [exact Hlt|]); eexists None, [_]; (split; [reflexivity|]); right;
    eexists _, _; (split; [reflexivity|]); (split; [reflexivity|]);
    split; intros; try reflexivity; try discriminate; congruence.
Qed.

(** One [scale_cloud_run_service] issues at most one update.  The update
    carries nothing but a ceiling, under the mask of the ceiling; the
    ceiling asked for is above the one read (10 when unset), by 5 at most,
    and never above 50.  No restart update and no call of the compute
    surface is made. *)
Theorem scale_update_is_bounded (service_name : value) (h : history) :
  exists outcome evs,
    scale service_name h = (Ok outcome, (h ++ evs)%list) /\
    (length (filter is_update evs) <= 1)%nat /\
    Forall (fun ev => is_restart_update ev = false) evs /\
    Forall (fun ev => is_stop ev = false /\ is_start ev = false
                      /\ is_zone_wait ev = false) evs /\
    (forall ev, In ev evs -> is_update ev = true ->
                exists svc new,
                  cloud_service gcp h (GetService (path_of service_name)) = Ok svc /\
                  fst ev = scaling_update service_name new /\
                  let current := if (ceiling svc =? 0)%Z then 10%Z else ceiling svc in
                  (current < new <= current + 5)%Z /\ (new <= 50)%Z).
Proof.
  destruct (scale_shape service_name h) as [outcome [evs [Hrun [_ Hshape]]]].
  exists outcome, evs. split; [exact Hrun|].
  destruct Hshape as [[e [-> _]] | [svc [Hget Hcases]]].
  - split; [cbn; lia|]. split; [repeat constructor|]. split; [repeat constructor|].
    intros ev [<-|[]] Hupd. discriminate Hupd.
  - cbv zeta in Hcases.
    destruct Hcases as [[Hcap [-> _]] | [Hlt [r [rest [-> Hrest]]]]].
    + split; [cbn; lia|]. split; [repeat constructor|]. split; [repeat constructor|].
      intros ev [<-|[]] Hupd. discriminate Hupd.
    + assert (Hev : forall ev : event,
                 fst ev = scaling_update service_name
                            (Z.min ((if (ceiling svc =? 0)%Z then 10 else ceiling svc) + 5)
                                   50) ->
                 exists svc0 new,
                   cloud_service gcp h (GetService (path_of service_name)) = Ok svc0 /\
                   fst ev = scaling_update service_name new /\
                   let current :=
                     if (ceiling svc0 =? 0)%Z then 10%Z else ceiling svc0 in
                   (current < new <= current + 5)%Z /\ (new <= 50)%Z).
      { intros ev Hfst. exists svc. eexists. split; [exact Hget|].
        split; [exact Hfst|]. cbv zeta. lia. }
      destruct Hrest as [[-> _] | [op [r2 [-> [-> _]]]]]; cbn [app].
      * split; [cbn; lia|]. split; [repeat constructor|].
        split; [repeat constructor|].
        intros ev [<-|[<-|[]]] Hupd; [discriminate Hupd | now apply Hev].
      * split; [cbn; lia|]. split; [repeat constructor|].
        split; [repeat constructor|].
        intros ev [<-|[<-|[<-|[]]]] Hupd;
          [discriminate Hupd | now apply Hev | discriminate Hupd].
Qed.

(** ** ServiceRestart: the restart marker *)

Lemma stamp_absent (now : string) (vars : list env_var) :
  existsb is_restart_timestamp vars = false ->
  stamp now vars = (vars ++ [EnvVar "RESTART_TIMESTAMP" now])%list.
Proof.
  induction vars as [|v vars IH]; cbn [existsb stamp app]; [reflexivity|].
  destruct (is_restart_timestamp v); cbn [orb]; [discriminate|].
  intros H. now rewrite IH.
Qed.



Lemma stamp_others (now : string) (vars : list env_var) :
  filter (fun v => negb (is_restart_timestamp v)) (stamp now vars)
  = filter (fun v => negb (is_restart_timestamp v)) vars.
Proof.
  induction vars as [|v vars IH]; cbn [stamp filter]; [reflexivity|].
  destruct (is_restart_timestamp v) eqn:E; cbn [negb filter].
  - unfold is_restart_timestamp in *. cbn [ev_name]. now rewrite E.
  - rewrite E. cbn [negb]. now rewrite IH.
Qed.

Lemma stamp_marker (now : string) (vars : list env_var) :
  In (EnvVar "RESTART_TIMESTAMP" now) (stamp now vars).
Proof.
  induction vars as [|v vars IH]; cbn [stamp]; [now left|].
  destruct (is_restart_timestamp v) eqn:E.
  - left. unfold is_restart_timestamp in E. apply String.eqb_eq in E. now rewrite E.
  - now right.
Qed.


Lemma stamp_stamp (now1 now2 : string) (vars : list env_var) :
  stamp now2 (stamp now1 vars) = stamp now2 vars.
Proof.
  induction vars as [|v vars IH]; cbn [stamp]; [reflexivity|].
  destruct (is_restart_timestamp v) eqn:E; cbn [stamp].
  - unfold is_restart_timestamp in *. cbn [ev_name]. now rewrite E.
  - rewrite E. now rewrite IH.
Qed.

Lemma update_restart_timestamp_spec (vars : list env_var) (h : history) :
  update_restart_timestamp clock vars h
  = if existsb is_restart_timestamp vars
    then (Ok (stamp (clock h) vars, true), (h ++ [(UtcNow, None)])%list)
    else (Ok (vars, false), h).
Proof.
  induction vars as [|v vars IH]; cbn [update_restart_timestamp existsb stamp];
    [reflexivity|].
  unfold is_restart_timestamp at 1 3.
  destruct (ev_name v =? "RESTART_TIMESTAMP"); cbn [orb]; [reflexivity|].
  unfold bind. rewrite IH.
  destruct (existsb is_restart_timestamp vars); reflexivity.
Qed.

(** The loop over the variables and the append that follows it, as they
    stand in [restart_cloud_run_service]. *)
Lemma restart_marker_refresh (vars : list env_var) (h : history) :
  (r <- update_restart_timestamp clock vars ;;
   if snd r then ret (fst r)
   else now <- utcnow_isoformat clock ;;
        ret (fst r ++ [EnvVar "RESTART_TIMESTAMP" now])%list) h
  = (Ok (stamp (clock h) vars), (h ++ [(UtcNow, None)])%list).
Proof.
  unfold bind at 1. rewrite update_restart_timestamp_spec.
  destruct (existsb is_restart_timestamp vars) eqn:E; cbn [fst snd].
  - reflexivity.
  - unfold bind, utcnow_isoformat, ret. now rewrite stamp_absent.
Qed.

Lemma restart_service_shape (service_name : value) (h : history) :
  exists outcome evs,
    restart_service service_name h = (Ok outcome, (h ++ evs)%list) /\
    action_of outcome = VStr "cloud_run_restart" /\
    ((exists e, cloud_service gcp h (GetService (path_of service_name)) = Raise e /\
                evs = [(GetService (path_of service_name), Some e)] /\
                status_of outcome = VStr "failed") \/
     (exists svc,
         cloud_service gcp h (GetService (path_of service_name)) = Ok svc /\
         containers (template svc) = [] /\
         evs = [(GetService (path_of service_name), None)] /\
         status_of outcome = VStr "failed") \/
     (exists svc container0 others r rest,
         cloud_service gcp h (GetService (path_of service_name)) = Ok svc /\
         containers (template svc) = container0 :: others /\
         evs = ([(GetService (path_of service_name), None);
                 (UtcNow, None);
                 (UpdateService
                    (restarted (path_of service_name) svc container0 others
                       (clock (h ++ [(GetService (path_of service_name), None)])%list))
                    "template", r)] ++ rest)%list /\
         (rest = [] /\ status_of outcome = VStr "failed"
          \/ exists op r2, r = None /\ rest = [(OperationResult op None, r2)] /\
                           (r2 = None -> status_of outcome = VStr "success") /\
                           (r2 <> None -> status_of outcome = VStr "failed")))).
Proof.
  unfold restart_cloud_run_service, operation_result.
  unfold try_catch, bind at 1, call at 1.
  destruct (cloud_service gcp h _) as [svc|e0] eqn:Eget; cbn [err_of].
  2: { eexists _, _. split; [reflexivity|]. split; [reflexivity|]. left. eauto. }
  destruct (containers (template svc)) as [|container0 others] eqn:Econt.
  { unfold raise. eexists _, _. split; [reflexivity|]. split; [reflexivity|].
    right. left. exists svc. auto. }
  assert (Hfinish : forall (c : completion operation) (hh : history),
             exists outcome r rest,
               (let (c0, h') :=
                  match c with
                  | Ok op =>
                      let (c1, h1) :=
                        (if op_has_result op
                         then call (cloud_wait gcp) (OperationResult op None)
                         else raise (MkExn "AttributeError"
                                       "'Operation' object has no attribute 'result'"))
                          (hh ++ [(UpdateService
                                     (restarted (path_of service_name) svc container0
                                        others
                                        (clock (h ++ [(GetService (path_of service_name),
                                                       None)])%list))
                                     "template", err_of c)])%list in
                      match c1 with
                      | Ok _ =>
                          (Ok [("action", VStr "cloud_run_restart");
                               ("status", VStr "success");
                               ("service", service_name);
                               ("message",
                                VStr ("Successfully initiated restart (new revision deployment) for Cloud Run service "
                                      ++ py_str repr_other service_name))], h1)
                      | Raise e => (Raise e, h1)
                      end
                  | Raise e =>
                      (Raise e,
                       (hh ++ [(UpdateService
                                  (restarted (path_of service_name) svc container0
                                     others
                                     (clock (h ++ [(GetService (path_of service_name),
                                                    None)])%list))
                                  "template", err_of c)])%list)
                  end in
                match c0 with
                | Ok a => (Ok a, h')
                | Raise e =>
                    (Ok [("action", VStr "cloud_run_restart");
                         ("status", VStr "failed");
                         ("service", service_name);
                         ("error", VStr (str_exn e))], h')
                end)
               = (Ok outcome,
                  (hh ++ (UpdateService
                            (restarted (path_of service_name) svc container0 others
                               (clock (h ++ [(GetService (path_of service_name),
                                              None)])%list))
                            "template", r) :: rest)%list) /\
               action_of outcome = VStr "cloud_run_restart" /\
               (rest = [] /\ status_of outcome = VStr "failed"
                \/ exists op r2, r = None /\ rest = [(OperationResult op None, r2)] /\
                                 (r2 = None -> status_of outcome = VStr "success") /\
                                 (r2 <> None -> status_of outcome = VStr "failed"))).
  { intros [op|e1] hh; cbn [err_of].
    2: { eexists _, _, []. repeat split. left. auto. }
    destruct (op_has_result op); unfold call, raise.
    2: { eexists _, _, []. repeat split. left. auto. }
    match goal with
    | |- context [cloud_wait gcp ?hx ?rq] =>
        destruct (cloud_wait gcp hx rq) as [[]|e2]
    end; cbn [err_of]; rewrite <- app_assoc; cbn [app];
      eexists _, _, [_]; (split; [reflexivity|]); (split; [reflexivity|]); right;
      eexists _, _; (split; [reflexivity|]); (split; [reflexivity|]);
      split; intros; try reflexivity; try discriminate; congruence. }
  unfold bind at 1. rewrite update_restart_timestamp_spec.
  set (now := clock (h ++ [(GetService (path_of service_name), None)])%list) in *.
  destruct (existsb is_restart_timestamp (c_env container0)) eqn:E; cbn [fst snd].
  - unfold bind, ret, call.
    match goal with
    | |- context [cloud_operation gcp ?hx ?rq] =>
        destruct (Hfinish (cloud_operation gcp hx rq) hx)
        as [outcome [r [rest [Hrun [Hact Hst]]]]]
    end.
    unfold restarted in Hrun. fold now in Hrun.
    exists outcome. eexists. split.
    { etransitivity; [|etransitivity; [exact Hrun|]].
      - reflexivity.
      - rewrite <- !app_assoc. reflexivity. }
    split; [exact Hact|]. do 2 right.
    exists svc, container0, others, r, rest. repeat split; auto.
  - unfold bind, utcnow_isoformat, ret, call. fold now.
    rewrite <- (stamp_absent now _ E).
    match goal with
    | |- context [cloud_operation gcp ?hx ?rq] =>
        destruct (Hfinish (cloud_operation gcp hx rq) hx)
        as [outcome [r [rest [Hrun [Hact Hst]]]]]
    end.
    unfold restarted in Hrun. fold now in Hrun.
    exists outcome. eexists. split.
    { etransitivity; [|etransitivity; [exact Hrun|]].
      - reflexivity.
      - rewrite <- !app_assoc. reflexivity. }
    split; [exact Hact|]. do 2 right.
    exists svc, container0, others, r, rest. repeat split; auto.
Qed.

Lemma stamp_names (now1 now2 : string) (vars : list env_var) :
  map ev_name (stamp now1 vars) = map ev_name (stamp now2 vars).
Proof.
  induction vars as [|v vars IH]; cbn [stamp map]; [reflexivity|].
  destruct (is_restart_timestamp v); cbn [map ev_name]; [reflexivity | now rewrite IH].
Qed.


(** When the service [get_service] returns has no container,
    [restart_cloud_run_service] gives up at once: the outcome is failed
    with the text of the exception, the clock is not read and no update is
    issued. *)
Theorem restart_without_containers (service_name : value) (h : history)
        (svc : service) :
  cloud_service gcp h (GetService (path_of service_name)) = Ok svc ->
  containers (template svc) = [] ->
  exists outcome message,
    restart_service service_name h
    = (Ok outcome, (h ++ [(GetService (path_of service_name), None)])%list) /\
    action_of outcome = VStr "cloud_run_restart" /\
    status_of outcome = VStr "failed" /\
    dict_get outcome "error" = Some (VStr message).
Proof.
  intros Hget Hcont.
  unfold restart_cloud_run_service, try_catch, bind, call, raise, ret.
  rewrite Hget, Hcont. cbn [err_of]. eexists _, _. repeat split.
Qed.

(** [restart_cloud_run_service] issues at most one update, always under
    the mask "template" and always asking for the ceiling it read: a
    restart never changes the scaling ceiling.  It makes no call of the
    compute surface. *)
Theorem restart_keeps_ceiling (service_name : value) (h : history) :
  exists outcome evs,
    restart_service service_name h = (Ok outcome, (h ++ evs)%list) /\
    (length (filter is_update evs) <= 1)%nat /\
    Forall (fun ev => is_scaling_update ev = false) evs /\
    Forall (fun ev => is_stop ev = false /\ is_start ev = false
                      /\ is_zone_wait ev = false) evs /\
    (forall ev, In ev evs -> is_update ev = true ->
                is_restart_update ev = true /\
                exists svc,
                  cloud_service gcp h (GetService (path_of service_name)) = Ok svc /\
                  requested_ceiling ev = Some (ceiling svc)).
Proof.
  destruct (restart_service_shape service_name h)
    as [outcome [evs [Hrun [_ Hshape]]]].
  exists outcome, evs. split; [exact Hrun|].
  destruct Hshape as [[e [_ [-> _]]] | [[svc [_ [_ [-> _]]]]
                     | [svc [c0 [others [r [rest [Hget [_ [-> Hrest]]]]]]]]]].
  - split; [cbn; lia|]. split; [repeat constructor|]. split; [repeat constructor|].
    intros ev [<-|[]] Hupd. discriminate Hupd.
  - split; [cbn; lia|]. split; [repeat constructor|]. split; [repeat constructor|].
    intros ev [<-|[]] Hupd. discriminate Hupd.
  - destruct Hrest as [[-> _] | [op [r2 [-> [-> _]]]]]; cbn [app].
    + split; [cbn; lia|]. split; [repeat constructor|].
      split; [repeat constructor|].
      intros ev [<-|[<-|[<-|[]]]] Hupd; try discriminate Hupd.
      split; [reflexivity|]. exists svc. split; [exact Hget | reflexivity].
    + split; [cbn; lia|]. split; [repeat constructor|].
      split; [repeat constructor|].
      intros ev [<-|[<-|[<-|[<-|[]]]]] Hupd; try discriminate Hupd.
      split; [reflexivity|]. exists svc. split; [exact Hget | reflexivity].
Qed.

(** Restarting twice.  When a later [get_service] returns the service a
    first restart sent, the second restart overwrites the marker in place:
    the service it sends has the same containers, the same ceiling and, in
    the first container, the same variables under the same names in the
    same order, differing from the first one in the value of the marker
    only. *)
Theorem restart_twice_in_place (service_name : value) (h h2 : history)
        (outcome1 : pydict) (sent1 : service) (r1 : option exn) (rest1 : list event) :
  restart_service service_name h
  = (Ok outcome1,
     (h ++ [(GetService (path_of service_name), None); (UtcNow, None);
            (UpdateService sent1 "template", r1)] ++ rest1)%list) ->
  cloud_service gcp h2 (GetService (path_of service_name)) = Ok sent1 ->
  exists outcome2 sent2 vars1 vars2 others r2 rest2,
    restart_service service_name h2
    = (Ok outcome2,
       (h2 ++ [(GetService (path_of service_name), None); (UtcNow, None);
               (UpdateService sent2 "template", r2)] ++ rest2)%list) /\
    containers (template sent1) = {| c_env := vars1 |} :: others /\
    containers (template sent2) = {| c_env := vars2 |} :: others /\
    ceiling sent2 = ceiling sent1 /\
    map ev_name vars2 = map ev_name vars1 /\
    filter (fun v => negb (is_restart_timestamp v)) vars2
    = filter (fun v => negb (is_restart_timestamp v)) vars1 /\
    In (EnvVar "RESTART_TIMESTAMP"
               (clock (h2 ++ [(GetService (path_of service_name), None)])%list))
       vars2.
Proof.
  intros Hrun1 Hget2.
  destruct (restart_service_shape service_name h)
    as [o1 [evs1 [Hrun1' [_ Hshape1]]]].
  rewrite Hrun1 in Hrun1'. injection Hrun1' as _ Hevs.
  apply app_inv_head in Hevs. subst evs1.
  destruct Hshape1 as [[e [_ [Hevs _]]] | [[svc [_ [_ [Hevs _]]]]
                      | [svc [c0 [others [r [rest [_ [_ [Hevs _]]]]]]]]]];
    try discriminate Hevs.
  cbn [app] in Hevs. injection Hevs as Hsent _ _. subst sent1.
  destruct (restart_service_shape service_name h2)
    as [outcome2 [evs2 [Hrun2 [_ Hshape2]]]].
  destruct Hshape2 as [[e [He _]] | [[svc' [Hget' [Hnil _]]]
                      | [svc' [c0' [others' [r2 [rest2 [Hget' [Hcont' [-> _]]]]]]]]]].
  { congruence. }
  { rewrite Hget2 in Hget'. injection Hget' as <-. discriminate Hnil. }
  rewrite Hget2 in Hget'. injection Hget' as <-.
  cbn [restarted template containers] in Hcont'. injection Hcont' as <- <-.
  exists outcome2. eexists _, _, _, others, r2, rest2.
  split; [exact Hrun2|]. split; [reflexivity|]. split; [reflexivity|].
  split; [reflexivity|]. cbn [c_env]. rewrite stamp_stamp.
  split; [apply stamp_names|]. split; [now rewrite !stamp_others|].
  apply stamp_marker.
Qed.

(** ** The dispatch table *)

Lemma restart_vm_action (instance_name : value) (h : history) :
  exists outcome h',
    restart_vm instance_name h = (Ok outcome, h') /\
    action_of outcome = VStr "vm_restart".
Proof.
  apply try_catch_returns.
  - repeat first [ apply returns_only_bind; intro | apply returns_only_ret ].
    reflexivity.
  - intros e. reflexivity.
Qed.

Lemma gce_is_not_cloud_run (v : value) :
  eq_str v "gce_instance" = true -> eq_str v "cloud_run_revision" = false.
Proof.
  intros H. apply eq_str_true in H. now subst v.
Qed.

(** On a gce_instance every recognised category (high CPU, service down,
    memory leak, error-rate spike) does the same thing: it runs
    [restart_vm_instance] on the resource name and returns its outcome,
    whose action is vm_restart.  Nothing of the managed-service surface is
    called. *)
Theorem compute_instance_is_restarted (alert_type : string)
        (resource_info : pydict) (alert_data : value) (h : history) :
  In alert_type ["high_cpu"; "service_down"; "memory_leak"; "error_rate_spike"] ->
  eq_str (dict_get_default resource_info "type" VNone) "gce_instance" = true ->
  decide alert_type resource_info alert_data h
  = restart_vm (dict_get_default resource_info "name" VNone) h /\
  exists outcome evs,
    decide alert_type resource_info alert_data h = (Ok outcome, (h ++ evs)%list) /\
    action_of outcome = VStr "vm_restart" /\
    Forall (fun ev => is_service_call ev = false) evs.
Proof.
  intros Hin Hgce.
  assert (Heq : decide alert_type resource_info alert_data h
                = restart_vm (dict_get_default resource_info "name" VNone) h).
  { pose proof (gce_is_not_cloud_run _ Hgce) as Hrun.
    cbn [In] in Hin.
    destruct Hin as [<-|[<-|[<-|[<-|[]]]]];
      unfold dispatch, recovery_actions, lookup_action; cbn [String.eqb Ascii.eqb Bool.eqb];
      unfold handle_error_rate_spike, handle_memory_leak, handle_service_down,
        handle_high_cpu;
      rewrite ?Hrun, Hgce; reflexivity. }
  split; [exact Heq|]. rewrite Heq.
  destruct (restart_vm_action (dict_get_default resource_info "name" VNone) h)
    as [outcome [h' [Hrun Hact]]].
  destruct (restart_vm_shape (dict_get_default resource_info "name" VNone) h)
    as [outcome' [evs [Hrun' Hshape]]].
  rewrite Hrun in Hrun'. injection Hrun' as <- ->.
  exists outcome, evs. split; [exact Hrun|]. split; [exact Hact|].
  destruct Hshape
    as [[e ->] | [[op [_ ->]] | [[op [w1 [e [Hw1 ->]]]]
       | [[op [w1 [r [Hw1 ->]]]] | [op1 [w1 [op2 [w2 [r [Hw1 [Hw2 ->]]]]]]]]]]];
    try (apply wait_request_is_wait in Hw1);
    try (apply wait_request_is_wait in Hw2);
    repeat constructor;
    try (destruct w1; (discriminate || reflexivity));
    try (destruct w2; (discriminate || reflexivity)).
Qed.

(** A high-CPU alert on a cloud_run_revision only scales: the outcome of
    [scale_cloud_run_service] is returned as it is — also when it is
    skipped or failed — and the service is not restarted: no update under
    the mask "template" is issued and the clock is not read. *)
Theorem high_cpu_only_scales (resource_info : pydict) (alert_data : value)
        (h : history) :
  eq_str (dict_get_default resource_info "type" VNone) "cloud_run_revision" = true ->
  decide "high_cpu" resource_info alert_data h
  = scale (dict_get_default resource_info "name" VNone) h /\
  exists outcome evs,
    decide "high_cpu" resource_info alert_data h = (Ok outcome, (h ++ evs)%list) /\
    action_of outcome = VStr "cloud_run_scale" /\
    (status_of outcome = VStr "success" \/ status_of outcome = VStr "skipped"
     \/ status_of outcome = VStr "failed") /\
    Forall (fun ev => is_restart_update ev = false /\ fst ev <> UtcNow) evs.
Proof.
  intros Hrun.
  assert (Hgce : eq_str (dict_get_default resource_info "type" VNone) "gce_instance"
                 = false).
  { apply eq_str_true in Hrun. now rewrite Hrun. }
  assert (Heq : decide "high_cpu" resource_info alert_data h
                = scale (dict_get_default resource_info "name" VNone) h).
  { unfold dispatch, recovery_actions, lookup_action. cbn [String.eqb Ascii.eqb Bool.eqb].
    unfold handle_high_cpu. now rewrite Hgce, Hrun. }
  split; [exact Heq|]. rewrite Heq.
  destruct (scale_shape (dict_get_default resource_info "name" VNone) h)
    as [outcome [evs [Hscale [Hact Hshape]]]].
  exists outcome, evs. split; [exact Hscale|]. split; [exact Hact|].
  destruct Hshape as [[e [-> Hst]] | [svc [_ Hcases]]].
  { split; [tauto|]. repeat constructor. discriminate. }
  cbv zeta in Hcases.
  destruct Hcases as [[_ [-> Hst]] | [_ [r [rest [-> Hrest]]]]].
  { split; [tauto|]. repeat constructor. discriminate. }
  destruct Hrest as [[-> Hst] | [op [r2 [-> [-> [Hok Hko]]]]]]; cbn [app].
  - split; [tauto|]. repeat constructor; discriminate.
  - split.
    + destruct r2; [right; right; apply Hko; discriminate | left; now apply Hok].
    + repeat constructor; discriminate.
Qed.

(** A service-down alert and a memory-leak alert are handled by the same
    code.  On a cloud_run_revision both restart the service at once: the
    outcome of [restart_cloud_run_service] is returned and no scaling
    update is attempted first. *)
Theorem service_down_restarts_directly (alert_type : string)
        (resource_info : pydict) (alert_data : value) (h : history) :
  In alert_type ["service_down"; "memory_leak"] ->
  eq_str (dict_get_default resource_info "type" VNone) "cloud_run_revision" = true ->
  decide alert_type resource_info alert_data h
  = restart_service (dict_get_default resource_info "name" VNone) h /\
  exists outcome evs,
    decide alert_type resource_info alert_data h = (Ok outcome, (h ++ evs)%list) /\
    action_of outcome = VStr "cloud_run_restart" /\
    Forall (fun ev => is_scaling_update ev = false) evs.
Proof.
  intros Hin Hrun.
  assert (Hgce : eq_str (dict_get_default resource_info "type" VNone) "gce_instance"
                 = false).
  { apply eq_str_true in Hrun. now rewrite Hrun. }
  assert (Heq : decide alert_type resource_info alert_data h
                = restart_service (dict_get_default resource_info "name" VNone) h).
  { cbn [In] in Hin.
    destruct Hin as [<-|[<-|[]]];
      unfold dispatch, recovery_actions, lookup_action; cbn [String.eqb Ascii.eqb Bool.eqb];
      unfold handle_memory_leak, handle_service_down;
      now rewrite Hgce, Hrun. }
  split; [exact Heq|]. rewrite Heq.
  destruct (restart_service_shape (dict_get_default resource_info "name" VNone) h)
    as [outcome [evs [Hrestart [Hact Hshape]]]].
  exists outcome, evs. split; [exact Hrestart|]. split; [exact Hact|].
  destruct Hshape as [[e [_ [-> _]]] | [[svc [_ [_ [-> _]]]]
                     | [svc [c0 [others [r [rest [_ [_ [-> Hrest]]]]]]]]]];
    [repeat constructor | repeat constructor |].
  destruct Hrest as [[-> _] | [op [r2 [-> [-> _]]]]]; repeat constructor.
Qed.

(** ** What a remediation may call *)

Lemma dispatch_events (alert_type : string) (resource_info : pydict)
      (alert_data : value) (h : history) :
  exists outcome evs,
    decide alert_type resource_info alert_data h = (Ok outcome, (h ++ evs)%list) /\
    Forall (fun ev => (is_cloud_call ev || is_clock_read ev)%bool = true) evs.
Proof.
  assert (Hvm : forall name h0, exists outcome evs,
               restart_vm name h0 = (Ok outcome, (h0 ++ evs)%list) /\
               Forall (fun ev => (is_cloud_call ev || is_clock_read ev)%bool = true) evs).
  { intros name h0.
    destruct (restart_vm_shape name h0)
      as [outcome [evs [Hrun
           [[e ->] | [[op [_ ->]] | [[op [w1 [e [Hw1 ->]]]]
            | [[op [w1 [r [Hw1 ->]]]] | [op1 [w1 [op2 [w2 [r [Hw1 [Hw2 ->]]]]]]]]]]]]]];
      exists outcome; eexists; (split; [exact Hrun|]);
      try (apply wait_request_is_wait in Hw1);
      try (apply wait_request_is_wait in Hw2);
      repeat constructor;
      try (destruct w1; (discriminate || reflexivity));
      try (destruct w2; (discriminate || reflexivity)). }
  assert (Hscale : forall name h0, exists outcome evs,
               scale name h0 = (Ok outcome, (h0 ++ evs)%list) /\
               Forall (fun ev => (is_cloud_call ev || is_clock_read ev)%bool = true) evs).
  { intros name h0.
    destruct (scale_shape name h0) as [outcome [evs [Hrun [_ Hshape]]]].
    exists outcome, evs. split; [exact Hrun|].
    destruct Hshape as [[e [-> _]] | [svc [_ Hcases]]]; [repeat constructor|].
    cbv zeta in Hcases.
    destruct Hcases as [[_ [-> _]] | [_ [r [rest [-> Hrest]]]]]; [repeat constructor|].
    destruct Hrest as [[-> _] | [op [r2 [-> [-> _]]]]]; repeat constructor. }
  assert (Hrestart : forall name h0, exists outcome evs,
               restart_service name h0 = (Ok outcome, (h0 ++ evs)%list) /\
               Forall (fun ev => (is_cloud_call ev || is_clock_read ev)%bool = true) evs).
  { intros name h0.
    destruct (restart_service_shape name h0) as [outcome [evs [Hrun [_ Hshape]]]].
    exists outcome, evs. split; [exact Hrun|].
    destruct Hshape as [[e [_ [-> _]]] | [[svc [_ [_ [-> _]]]]
                       | [svc [c0 [others [r [rest [_ [_ [-> Hrest]]]]]]]]]];
      [repeat constructor | repeat constructor |].
    destruct Hrest as [[-> _] | [op [r2 [-> [-> _]]]]]; repeat constructor. }
  assert (Hnone : forall outcome : pydict, exists outcome' evs,
               (Ok outcome, h) = (Ok outcome', (h ++ evs)%list) /\
               Forall (fun ev => (is_cloud_call ev || is_clock_read ev)%bool = true) evs).
  { intros outcome. exists outcome, []. rewrite app_nil_r. split; [reflexivity|constructor]. }
  assert (Hdown : exists outcome evs,
             handle_service_down repr_other cfg gcp clock resource_info alert_data h
             = (Ok outcome, (h ++ evs)%list) /\
             Forall (fun ev => (is_cloud_call ev || is_clock_read ev)%bool = true) evs).
  { unfold handle_service_down.
    destruct (eq_str _ "gce_instance"); [apply Hvm|].
    destruct (eq_str _ "cloud_run_revision"); [apply Hrestart | apply Hnone]. }
  unfold dispatch, recovery_actions, lookup_action.
  repeat match goal with
         | |- context [if ?k =? alert_type then _ else _] =>
             destruct (k =? alert_type)
         end.
  - unfold handle_high_cpu.
    destruct (eq_str _ "gce_instance"); [apply Hvm|].
    destruct (eq_str _ "cloud_run_revision"); [apply Hscale | apply Hnone].
  - exact Hdown.
  - exact Hdown.
  - unfold handle_error_rate_spike.
    destruct (eq_str _ "cloud_run_revision"); [|exact Hdown].
    unfold bind.
    destruct (Hscale (dict_get_default resource_info "name" VNone) h)
      as [so [evs1 [-> Hall1]]].
    destruct (negb _).
    + destruct (Hrestart (dict_get_default resource_info "name" VNone)
                  (h ++ evs1)%list) as [ro [evs2 [-> Hall2]]].
      exists ro, (evs1 ++ evs2)%list. rewrite app_assoc.
      split; [reflexivity|]. apply Forall_app. auto.
    + exists so, evs1. auto.
  - apply Hnone.
Qed.

Section FurtherReporting.

Variable ncfg : notify_settings.
Variable sink : history -> request -> completion unit.
Variable format_notification_message :
  history -> string -> pydict -> pydict -> completion string.
Variable decode_message : value -> completion value.

Local Abbreviation notify :=
  (send_notification ncfg sink format_notification_message).
Local Abbreviation process :=
  (process_alert repr_other cfg gcp clock ncfg sink format_notification_message).
Local Abbreviation slack_post message := (SlackPost (SLACK_WEBHOOK_URL ncfg) message).
Local Abbreviation email_post message alert_type :=
  (EmailPost (SENDGRID_API_KEY ncfg) (NOTIFICATION_EMAIL ncfg)
             (SENDGRID_SENDER_EMAIL ncfg) message alert_type).

(** ** Notification sinks *)

Lemma truthy_str_nonempty (s : string) : s <> "" -> truthy (VStr s) = true.
Proof.
  intros H. cbn. destruct (String.eqb_spec s ""); [contradiction | reflexivity].
Qed.

(** With both sinks configured and the report formatted, which reads
    the clock once, both are tried, Slack first and e-mail second, with
    the same text: a Slack post that raises does not keep the e-mail from
    being sent, and [send_notification] returns normally whatever the two
    posts did. *)
Theorem both_sinks_are_tried (alert_type : string) (resource_info outcome : pydict)
        (h : history) (message : string) :
  format_notification_message h alert_type resource_info outcome = Ok message ->
  truthy_opt (SLACK_WEBHOOK_URL ncfg) = true ->
  truthy_opt (SENDGRID_API_KEY ncfg) = true ->
  NOTIFICATION_EMAIL ncfg <> "" ->
  exists r1 r2,
    notify alert_type resource_info outcome h
    = (Ok tt, (h ++ [(UtcNow, None);
                     (slack_post message, r1);
                     (email_post message alert_type, r2)])%list) /\
    r1 = err_of (sink (h ++ [(UtcNow, None)])%list (slack_post message)) /\
    r2 = err_of (sink (h ++ [(UtcNow, None); (slack_post message, r1)])%list
                      (email_post message alert_type)).
Proof.
  intros Hfmt Hslack Hkey Hto. apply truthy_str_nonempty in Hto.
  unfold send_notification, send_slack_notification, send_email_notification.
  unfold try_catch, bind, call, ret.
  rewrite Hfmt, Hslack, Hkey, Hto. cbn [andb negb orb].
  destruct (sink (h ++ [(UtcNow, None)])%list (slack_post message)) as [[]|e1];
    cbn [err_of];
    match goal with
    | |- context [sink ?hh (email_post message alert_type)] =>
        destruct (sink hh (email_post message alert_type)) as [[]|e2] eqn:E
    end; cbn [err_of]; rewrite <- !app_assoc; cbn [app];
    rewrite <- app_assoc in E; cbn [app] in E;
    eexists _, _; (split; [reflexivity|]); split; try reflexivity;
    exact (eq_sym (f_equal err_of E)).
Qed.

(** ** The order of effects in [process_alert] *)

(** When the classifier and the extractor return, [process_alert] works
    in three stages that do not interleave: first the remediation (calls of
    the cloud surfaces and clock readings only), then exactly one log
    entry, stamped with a clock reading of its own, then the notification:
    one clock reading by the report formatter followed by Slack and e-mail
    posts only, or nothing at all when the formatter raises; the last
    thing it does is read the clock for the result. *)
Theorem process_alert_stages (alert_data : value) (alert_type : string)
        (resource_info : pydict) (h : history) :
  classify_alert alert_data = Ok alert_type ->
  extract_resource_info alert_data = Ok resource_info ->
  exists res outcome remediation log_entry r reads posts,
    process alert_data h
    = (Ok res,
       (h ++ remediation ++ [(UtcNow, None); (LogWrite log_entry, r)]
          ++ reads ++ posts ++ [(UtcNow, None)])%list) /\
    Forall (fun ev => (is_cloud_call ev || is_clock_read ev)%bool = true) remediation /\
    ((reads = [] /\ posts = [] /\
      exists e,
        format_notification_message
          (h ++ remediation ++ [(UtcNow, None); (LogWrite log_entry, r)])%list
          alert_type resource_info outcome = Raise e) \/
     (reads = [(UtcNow, None)] /\
      exists message,
        format_notification_message
          (h ++ remediation ++ [(UtcNow, None); (LogWrite log_entry, r)])%list
          alert_type resource_info outcome = Ok message)) /\
    Forall (fun ev => (is_slack_post ev || is_email_post ev)%bool = true) posts /\
    decide alert_type resource_info alert_data h
    = (Ok outcome, (h ++ remediation)%list) /\
    dict_get log_entry "alert_type" = Some (VStr alert_type) /\
    dict_get log_entry "resource" = Some (VDict resource_info) /\
    dict_get log_entry "action_result" = Some (VDict outcome).
Proof.
  intros Hcl Hex.
  destruct (process_alert_run repr_other cfg gcp clock ncfg sink
              format_notification_message alert_data h)
    as [[e [[Hraise | [a [_ Hraise]]] _]]
       | [at' [ri' [outcome [h1 [r [reads [evs
           [Hcl' [Hex' [Hdec [_ [Hreads [Hall Hrun]]]]]]]]]]]]]];
    try congruence.
  assert (at' = alert_type) by congruence. subst at'.
  assert (ri' = resource_info) by congruence. subst ri'.
  destruct (dispatch_events alert_type resource_info alert_data h)
    as [outcome' [remediation [Hdec' Hkinds]]].
  rewrite Hdec in Hdec'. injection Hdec' as <- ->.
  cbv zeta in Hrun. destruct Hrun as [Hrun Hfmt].
  eexists _, outcome, remediation, _, r, reads, evs. split.
  { rewrite Hrun. f_equal. rewrite <- !app_assoc. cbn [app].
    rewrite <- ?app_assoc. reflexivity. }
  split; [assumption|].
  split.
  { rewrite app_assoc.
    destruct Hreads as [[-> ->] | ->].
    - left. split; [reflexivity|]. split; [reflexivity|]. now apply Hfmt.
    - right. split; [reflexivity|].
      match goal with
      | |- exists m, ?f = Ok m =>
          destruct f as [message|e] eqn:E; [now exists message|]
      end.
      assert (Hnil : [(UtcNow, @None exn)] = []) by (apply Hfmt; now exists e).
      discriminate Hnil. }
  repeat split; assumption.
Qed.

(** The severity of the log entry follows the status of the outcome and
    nothing else: INFO when the status is success, ERROR in every other
    case — a failed action, but also a skipped scale and an alert_only
    decision, which has no status. *)
Theorem log_severity_follows_status (alert_data : value) (alert_type : string)
        (resource_info outcome : pydict) (h h1 : history) :
  classify_alert alert_data = Ok alert_type ->
  extract_resource_info alert_data = Ok resource_info ->
  decide alert_type resource_info alert_data h = (Ok outcome, h1) ->
  exists res h' log_entry r,
    process alert_data h = (Ok res, h') /\
    In (LogWrite log_entry, r) h' /\
    dict_get log_entry "action_result" = Some (VDict outcome) /\
    (status_of outcome = VStr "success" ->
     dict_get log_entry "severity" = Some (VStr "INFO")) /\
    (status_of outcome <> VStr "success" ->
     dict_get log_entry "severity" = Some (VStr "ERROR")).
Proof.
  intros Hcl Hex Hdec.
  destruct (process_alert_run repr_other cfg gcp clock ncfg sink
              format_notification_message alert_data h)
    as [[e [[Hraise | [a [_ Hraise]]] _]]
       | [at' [ri' [outcome' [h1' [r [reads [evs
           [Hcl' [Hex' [Hdec' [_ [_ [_ Hrun]]]]]]]]]]]]]];
    try congruence.
  assert (at' = alert_type) by congruence. subst at'.
  assert (ri' = resource_info) by congruence. subst ri'.
  rewrite Hdec in Hdec'. injection Hdec' as <- <-.
  cbv zeta in Hrun. destruct Hrun as [Hrun _].
  eexists _, _, _, r. split; [exact Hrun|].
  split; [apply in_or_app; left; apply in_or_app; right; right; left; reflexivity|].
  split; [reflexivity|].
  destruct (eq_str (status_of outcome) "success") eqn:E.
  - split; [reflexivity|]. intros Hne. apply eq_str_true in E. contradiction.
  - split; [|reflexivity]. intros Hs. apply eq_str_true in Hs. congruence.
Qed.

(** A payload on which the classifier or the extractor raises has no
    effect at all: [process_alert] returns the error result carrying the
    text of the exception, and the only thing done is the clock reading
    for its timestamp — no remediation, no log entry, no notification. *)
Theorem malformed_alert_has_no_effect (alert_data : value) (e : exn) (h : history) :
  pipeline_raises alert_data e ->
  process alert_data h
  = (Ok [("status", VStr "error");
         ("error", VStr (str_exn e));
         ("timestamp", VStr (clock h))],
     (h ++ [(UtcNow, None)])%list).
Proof.
  intros Hraise.
  destruct (process_alert_run repr_other cfg gcp clock ncfg sink
              format_notification_message alert_data h)
    as [[e' [Hraise' Hrun]]
       | [at' [ri' [outcome [h1 [r [reads [evs [Hcl' [Hex' _]]]]]]]]]].
  - now rewrite (pipeline_raises_unique _ _ _ Hraise Hraise').
  - destruct Hraise as [H | [a [_ H]]]; congruence.
Qed.

(** ** Entry points *)

Local Abbreviation http :=
  (autoheal_http repr_other cfg gcp clock ncfg sink format_notification_message).
Local Abbreviation on_event :=
  (autoheal_function repr_other cfg gcp clock ncfg sink format_notification_message
                     decode_message).

Lemma process_alert_returns (alert_data : value) (h : history) :
  exists res evs,
    process alert_data h = (Ok res, (h ++ evs)%list) /\
    (forall e, pipeline_raises alert_data e ->
               res = error_result e (clock h) /\ evs = [(UtcNow, None)]) /\
    ((exists e, pipeline_raises alert_data e) \/
     dict_get res "status" = Some (VStr "success")).
Proof.
  destruct (process_alert_run repr_other cfg gcp clock ncfg sink
              format_notification_message alert_data h)
    as [[e [Hraise Hrun]]
       | [at' [ri' [outcome [h1 [r [reads [evs
           [Hcl [Hex [Hdec [_ [_ [_ Hrun]]]]]]]]]]]]]].
  - eexists _, _. split; [exact Hrun|]. split; [|left; eauto].
    intros e' Hraise'. now rewrite (pipeline_raises_unique _ _ _ Hraise' Hraise).
  - destruct (dispatch_events at' ri' alert_data h) as [o' [evs' [Hdec' _]]].
    rewrite Hdec in Hdec'. injection Hdec' as <- ->.
    cbv zeta in Hrun. destruct Hrun as [Hrun _]. eexists _, _. split.
    { rewrite Hrun. f_equal. rewrite <- !app_assoc. reflexivity. }
    split; [|right; reflexivity].
    intros e [H | [a [_ H]]]; congruence.
Qed.

(** [autoheal_http] never raises.  The status code it sets is 400, 405 or
    500, or none; it is 500 exactly when the method is POST and
    [request.get_json()] raises, and the body then carries the text of
    that exception. *)
Theorem http_never_raises (request : http_request) (h : history) :
  exists body code evs,
    http request h = (Ok (body, code), (h ++ evs)%list) /\
    In code [None; Some 400%Z; Some 405%Z; Some 500%Z] /\
    (code = Some 500%Z <->
     method request = "POST" /\ exists e, get_json request = Raise e) /\
    (forall e, method request = "POST" -> get_json request = Raise e ->
               body = error_result e (clock h) /\ evs = [(UtcNow, None)]).
Proof.
  unfold autoheal_http, try_catch, bind, lift.
  destruct (String.eqb_spec (method request) "GET") as [Hget|Hnget].
  { unfold utcnow_isoformat, ret. eexists _, _, _. split; [reflexivity|].
    split; [cbn; tauto|]. split; [|intros e H; rewrite Hget in H; discriminate H].
    split; [discriminate|]. intros [H _]. rewrite Hget in H. discriminate H. }
  destruct (String.eqb_spec (method request) "POST") as [Hpost|Hnpost].
  2: { unfold ret. eexists _, _, []. rewrite app_nil_r. split; [reflexivity|].
       split; [cbn; tauto|]. split; [|intros e H; contradiction].
       split; [discriminate|]. intros [H _]. contradiction. }
  destruct (get_json request) as [v|e] eqn:Ejson.
  2: { unfold utcnow_isoformat, ret. eexists _, _, _. split; [reflexivity|].
       split; [cbn; tauto|]. split; [|intros e' _ [= <-]; auto].
       split; [intros _; eauto | reflexivity]. }
  destruct (truthy v); cbn [negb].
  2: { unfold ret. eexists _, _, []. rewrite app_nil_r. split; [reflexivity|].
       split; [cbn; tauto|]. split; [|intros e _ H; discriminate H].
       split; [discriminate|]. intros [_ [e H]]. discriminate H. }
  destruct (process_alert_returns v h) as [res [evs [-> _]]].
  unfold ret. eexists _, _, _. split; [reflexivity|].
  split; [cbn; tauto|]. split; [|intros e _ H; discriminate H].
  split; [discriminate|]. intros [_ [e H]]. discriminate H.
Qed.

(** Only a POST with a truthy JSON body reaches the engine.  A GET is
    answered by the health report, with a clock reading and without
    calling [get_json]; a POST whose body is falsy — null, but also the
    empty object, the empty list, 0, "" or false — is answered with 400; any
    other method with 405.  None of these calls a cloud surface, writes a
    log entry or posts a notification. *)
Theorem http_requests_that_do_nothing (request : http_request) (h : history) :
  method request <> "POST" \/
  (exists v, get_json request = Ok v /\ truthy v = false) ->
  exists body code evs,
    http request h = (Ok (body, code), (h ++ evs)%list) /\
    Forall (fun ev => is_clock_read ev = true) evs /\
    (method request = "GET" ->
     body = [("status", VStr "healthy"); ("service", VStr "AutoHeal-GCP");
             ("timestamp", VStr (clock h)); ("version", VStr "1.0.0")] /\
     code = None) /\
    (method request = "POST" ->
     body = [("error", VStr "No JSON data provided")] /\ code = Some 400%Z /\
     evs = []) /\
    (method request <> "GET" -> method request <> "POST" ->
     body = [("error", VStr "Method not allowed")] /\ code = Some 405%Z /\
     evs = []).
Proof.
  intros Hidle.
  unfold autoheal_http, try_catch, bind, lift.
  destruct (String.eqb_spec (method request) "GET") as [Hget|Hnget].
  { unfold utcnow_isoformat, ret. eexists _, _, _. split; [reflexivity|].
    split; [repeat constructor|]. split; [auto|].
    split; [intros H; rewrite Hget in H; discriminate H | contradiction]. }
  destruct (String.eqb_spec (method request) "POST") as [Hpost|Hnpost].
  2: { unfold ret. eexists _, _, []. rewrite app_nil_r. split; [reflexivity|].
       split; [constructor|]. split; [contradiction|]. split; [contradiction | auto]. }
  destruct Hidle as [H | [v [Hjson Hfalsy]]]; [contradiction|].
  rewrite Hjson, Hfalsy. cbn [negb]. unfold ret.
  eexists _, _, []. rewrite app_nil_r. split; [reflexivity|].
  split; [constructor|]. split; [contradiction|]. split; [auto | contradiction].
Qed.

(** A POST with a truthy JSON body is answered with the result of
    [process_alert] on that body and no status code — also when the
    result is the error result of a payload the pipeline could not read,
    which therefore is not reported as a 500. *)
Theorem http_post_is_processed (request : http_request) (alert_data : value)
        (h : history) :
  method request = "POST" ->
  get_json request = Ok alert_data ->
  truthy alert_data = true ->
  exists res evs,
    process alert_data h = (Ok res, (h ++ evs)%list) /\
    http request h = (Ok (res, None), (h ++ evs)%list) /\
    (forall e, pipeline_raises alert_data e ->
               res = [("status", VStr "error");
                      ("error", VStr (str_exn e));
                      ("timestamp", VStr (clock h))]).
Proof.
  intros Hpost Hjson Htruthy.
  destruct (process_alert_returns alert_data h) as [res [evs [Hrun [Herr _]]]].
  exists res, evs. split; [exact Hrun|]. split.
  - unfold autoheal_http, try_catch, bind, lift, ret.
    rewrite Hpost. cbn [String.eqb Ascii.eqb Bool.eqb].
    rewrite Hjson. cbv beta iota. rewrite Htruthy. cbn [negb]. cbv beta iota.
    now rewrite Hrun.
  - intros e He. now destruct (Herr e He).
Qed.

(** [autoheal_function] never raises.  When the event data cannot be
    opened — it is no container, or the key 'data' is found in a str or a
    list, or the decoding of its value raises — the error result carrying
    the text of the exception is returned, and nothing is done but the
    clock reading for its timestamp. *)
Theorem event_that_cannot_be_opened (cloud_event_data : value) (e : exn)
        (h : history) :
  py_in "data" cloud_event_data = Raise e \/
  (py_in "data" cloud_event_data = Ok true /\
   (py_subscript cloud_event_data "data" = Raise e \/
    exists raw, py_subscript cloud_event_data "data" = Ok raw /\
                decode_message raw = Raise e)) ->
  on_event cloud_event_data h
  = (Ok [("status", VStr "error");
         ("error", VStr (str_exn e));
         ("timestamp", VStr (clock h))],
     (h ++ [(UtcNow, None)])%list).
Proof.
  unfold autoheal_function, try_catch, bind, lift, utcnow_isoformat, ret.
  intros [Hin | [Hin [Hsub | [raw [Hsub Hdec]]]]]; rewrite Hin; cbn [rbind];
    rewrite ?Hsub; cbn [rbind]; rewrite ?Hdec; reflexivity.
Qed.

(** [autoheal_function] hands to [process_alert] either the event data
    itself, when it is a mapping without the key 'data', or what the
    decoding of the value under 'data' gives, and returns what
    [process_alert] returns, calling nothing else.  It never raises. *)
Theorem event_payload_is_processed (cloud_event_data : value) (h : history) :
  exists res evs,
    on_event cloud_event_data h = (Ok res, (h ++ evs)%list) /\
    (forall d, cloud_event_data = VDict d -> dict_get d "data" = None ->
               process cloud_event_data h = (Ok res, (h ++ evs)%list)) /\
    (forall d raw alert_data,
        cloud_event_data = VDict d -> dict_get d "data" = Some raw ->
        decode_message raw = Ok alert_data ->
        process alert_data h = (Ok res, (h ++ evs)%list)).
Proof.
  unfold autoheal_function, try_catch, bind, lift.
  destruct (py_in "data" cloud_event_data) as [[|]|e] eqn:Ein; cbn [rbind].
  - destruct (py_subscript cloud_event_data "data") as [raw|e] eqn:Esub; cbn [rbind].
    + destruct (decode_message raw) as [alert_data|e] eqn:Edec.
      * destruct (process_alert_returns alert_data h) as [res [evs [Hrun _]]].
        rewrite Hrun. unfold ret. exists res, evs. split; [reflexivity|]. split.
        -- intros d -> Hnone. cbn in Ein. rewrite Hnone in Ein. discriminate Ein.
        -- intros d raw' alert_data' -> Hsome Hdec. cbn in Esub.
           rewrite Hsome in Esub. injection Esub as ->. congruence.
      * unfold utcnow_isoformat, ret. eexists _, _. split; [reflexivity|]. split.
        -- intros d -> Hnone. cbn in Ein. rewrite Hnone in Ein. discriminate Ein.
        -- intros d raw' alert_data' -> Hsome Hdec. cbn in Esub.
           rewrite Hsome in Esub. injection Esub as ->. congruence.
    + unfold utcnow_isoformat, ret. eexists _, _. split; [reflexivity|]. split.
      * intros d -> Hnone. cbn in Ein. rewrite Hnone in Ein. discriminate Ein.
      * intros d raw alert_data -> Hsome _. cbn in Esub.
        rewrite Hsome in Esub. discriminate Esub.
  - destruct (process_alert_returns cloud_event_data h) as [res [evs [Hrun _]]].
    rewrite Hrun. unfold ret. exists res, evs. split; [reflexivity|]. split.
    + intros d _ _. reflexivity.
    + intros d raw alert_data -> Hsome _. cbn in Ein. rewrite Hsome in Ein.
      discriminate Ein.
  - unfold utcnow_isoformat, ret. eexists _, _. split; [reflexivity|]. split.
    + intros d -> _. discriminate Ein.
    + intros d raw alert_data -> _ _. discriminate Ein.
Qed.

End FurtherReporting.

End FurtherProperties.

(* ===================================================================== *)
(** ** The further properties on sample runs *)

Lemma wait_for_operation_one_call_witness :
  wait_for_operation (gcp_healthy 10) op_demo "update" None "us-central1-a" []
  = (Ok tt, [(OperationResult op_demo (Some 300%Z), None)]).
Proof.
  destruct (wait_for_operation_one_call (gcp_healthy 10) op_demo "update" None
              "us-central1-a" [])
    as [r [evs [Hrun [_ [_ [_ [Hresult _]]]]]]].
  destruct (Hresult (or_introl eq_refl) eq_refl) as [-> ->].
  exact Hrun.
Defined.

Lemma restart_vm_without_zone_wait_witness :
  exists outcome evs,
    restart_vm_instance repr_demo cfg_no_project (gcp_healthy 10) (VStr "web-1") []
    = (Ok outcome, evs) /\
    Forall (fun ev => is_zone_wait ev = false) evs.
Proof.
  destruct (restart_vm_without_zone_wait repr_demo cfg_no_project (gcp_healthy 10)
              (VStr "web-1") [] eq_refl)
    as [outcome [evs [Hrun [Hall _]]]].
  exists outcome, evs. split; [exact Hrun | exact Hall].
Defined.


Lemma restart_without_containers_witness :
  exists outcome,
    restart_cloud_run_service repr_demo cfg_demo gcp_no_containers clock_demo
                              (VStr "api-svc") []
    = (Ok outcome,
       [(GetService (service_path repr_demo cfg_demo (VStr "api-svc")), None)]) /\
    status_of outcome = VStr "failed".
Proof.
  destruct (restart_without_containers repr_demo cfg_demo gcp_no_containers clock_demo
              (VStr "api-svc") [] service_without_containers eq_refl eq_refl)
    as [outcome [message [Hrun [_ [Hfailed _]]]]].
  exists outcome. split; [exact Hrun | exact Hfailed].
Defined.

Lemma restart_twice_in_place_witness :
  exists outcome2 sent2 vars2 r2 rest2,
    restart_cloud_run_service repr_demo cfg_demo gcp_store clock_demo (VStr "api-svc")
      (snd (restart_cloud_run_service repr_demo cfg_demo gcp_store clock_demo
              (VStr "api-svc") []))
    = (Ok outcome2,
       (snd (restart_cloud_run_service repr_demo cfg_demo gcp_store clock_demo
               (VStr "api-svc") [])
          ++ [(GetService (service_path repr_demo cfg_demo (VStr "api-svc")), None);
              (UtcNow, None); (UpdateService sent2 "template", r2)] ++ rest2)%list) /\
    containers (template sent2) = [ {| c_env := vars2 |} ] /\
    map ev_name vars2 = ["MODE"; "RESTART_TIMESTAMP"].
Proof.
  destruct (restart_twice_in_place repr_demo cfg_demo gcp_store clock_demo
              (VStr "api-svc") []
              (snd (restart_cloud_run_service repr_demo cfg_demo gcp_store clock_demo
                      (VStr "api-svc") []))
              [("action", VStr "cloud_run_restart");
               ("status", VStr "success");
               ("service", VStr "api-svc");
               ("message",
                VStr "Successfully initiated restart (new revision deployment) for Cloud Run service api-svc")]
              {| svc_name := "projects/demo-project/locations/us-central1/services/api-svc";
                 template :=
                   {| scaling_max_instance_count := 10;
                      containers :=
                        [ {| c_env := [EnvVar "MODE" "prod";
                                       EnvVar "RESTART_TIMESTAMP"
                                              "2024-05-01T12:00:00"] |} ] |} |}
              None [(OperationResult op_demo None, None)]
              eq_refl eq_refl)
    as [outcome2 [sent2 [vars1 [vars2 [others [r2 [rest2
         [Hrun [Hsent1 [Hsent2 [_ [Hnames _]]]]]]]]]]]].
  cbn [containers template] in Hsent1. injection Hsent1 as <- <-.
  exists outcome2, sent2, vars2, r2, rest2.
  split; [exact Hrun|]. split; [exact Hsent2 | exact Hnames].
Defined.

Lemma compute_instance_is_restarted_witness :
  exists outcome evs,
    dispatch repr_demo cfg_demo (gcp_healthy 10) clock_demo
             "error_rate_spike" web_1_info (VDict []) []
    = (Ok outcome, evs) /\
    action_of outcome = VStr "vm_restart".
Proof.
  destruct (compute_instance_is_restarted repr_demo cfg_demo (gcp_healthy 10)
              clock_demo "error_rate_spike" web_1_info (VDict []) []
              (or_intror (or_intror (or_intror (or_introl eq_refl)))) eq_refl)
    as [_ [outcome [evs [Hrun [Haction _]]]]].
  exists outcome, evs. split; [exact Hrun | exact Haction].
Defined.

Lemma high_cpu_only_scales_witness :
  exists outcome evs,
    dispatch repr_demo cfg_demo (gcp_healthy 50) clock_demo
             "high_cpu" api_svc_info (VDict []) []
    = (Ok outcome, evs) /\
    action_of outcome = VStr "cloud_run_scale" /\
    Forall (fun ev => is_restart_update ev = false /\ fst ev <> UtcNow) evs.
Proof.
  destruct (high_cpu_only_scales repr_demo cfg_demo (gcp_healthy 50) clock_demo
              api_svc_info (VDict []) [] eq_refl)
    as [_ [outcome [evs [Hrun [Haction [_ Hall]]]]]].
  exists outcome, evs. auto.
Defined.

Lemma service_down_restarts_directly_witness :
  exists outcome evs,
    dispatch repr_demo cfg_demo (gcp_healthy 10) clock_demo
             "memory_leak" api_svc_info (VDict []) []
    = (Ok outcome, evs) /\
    action_of outcome = VStr "cloud_run_restart".
Proof.
  destruct (service_down_restarts_directly repr_demo cfg_demo (gcp_healthy 10)
              clock_demo "memory_leak" api_svc_info (VDict []) []
              (or_intror (or_introl eq_refl)) eq_refl)
    as [_ [outcome [evs [Hrun [Haction _]]]]].
  exists outcome, evs. split; [exact Hrun | exact Haction].
Defined.

Lemma both_sinks_are_tried_witness :
  send_notification ncfg_demo sink_down fmt_demo "high_cpu" web_1_info [] []
  = (Ok tt,
     [(UtcNow, None);
      (SlackPost (SLACK_WEBHOOK_URL ncfg_demo) "AutoHeal Action Report: high_cpu",
       Some (MkExn "ConnectionError" "connection refused"));
      (EmailPost (SENDGRID_API_KEY ncfg_demo) (NOTIFICATION_EMAIL ncfg_demo)
                 (SENDGRID_SENDER_EMAIL ncfg_demo)
                 "AutoHeal Action Report: high_cpu" "high_cpu",
       Some (MkExn "ConnectionError" "connection refused"))]).
Proof.
  destruct (both_sinks_are_tried ncfg_demo sink_down fmt_demo "high_cpu" web_1_info
              [] [] "AutoHeal Action Report: high_cpu" eq_refl eq_refl eq_refl)
    as [r1 [r2 [Hrun [-> ->]]]].
  - discriminate.
  - exact Hrun.
Defined.

Lemma process_alert_stages_witness :
  exists res remediation log_entry r reads posts,
    process_alert repr_demo cfg_demo (gcp_healthy 10) clock_demo
                  ncfg_demo sink_ok fmt_demo (VDict alert_web_1) []
    = (Ok res,
       (remediation ++ [(UtcNow, None); (LogWrite log_entry, r)]
          ++ reads ++ posts ++ [(UtcNow, None)])%list) /\
    dict_get log_entry "alert_type" = Some (VStr "high_cpu").
Proof.
  destruct (process_alert_stages repr_demo cfg_demo (gcp_healthy 10) clock_demo
              ncfg_demo sink_ok fmt_demo (VDict alert_web_1) "high_cpu" web_1_info []
              eq_refl eq_refl)
    as [res [outcome [remediation [log_entry [r [reads [posts
         [Hrun [_ [_ [_ [_ [Htype _]]]]]]]]]]]]].
  exists res, remediation, log_entry, r, reads, posts.
  split; [exact Hrun | exact Htype].
Defined.

Lemma log_severity_follows_status_witness :
  exists res h' log_entry r,
    process_alert repr_demo cfg_demo (gcp_healthy 50) clock_demo
                  ncfg_demo sink_ok fmt_demo
                  (VDict [("incident",
                           VDict [("condition_display_name", VStr "CPU above 90%");
                                  ("resource", VDict api_svc_info)])]) []
    = (Ok res, h') /\
    In (LogWrite log_entry, r) h' /\
    dict_get log_entry "severity" = Some (VStr "ERROR").
Proof.
  destruct (log_severity_follows_status repr_demo cfg_demo (gcp_healthy 50) clock_demo
              ncfg_demo sink_ok fmt_demo
              (VDict [("incident",
                       VDict [("condition_display_name", VStr "CPU above 90%");
                              ("resource", VDict api_svc_info)])])
              "high_cpu" api_svc_info
              [("action", VStr "cloud_run_scale");
               ("status", VStr "skipped");
               ("service", VStr "api-svc");
               ("message",
                VStr "Max instances already at or above target (50) for api-svc")]
              []
              [(GetService "projects/demo-project/locations/us-central1/services/api-svc",
                None)]
              eq_refl eq_refl eq_refl)
    as [res [h' [log_entry [r [Hrun [Hin [_ [_ Herror]]]]]]]].
  exists res, h', log_entry, r. split; [exact Hrun|]. split; [exact Hin|].
  apply Herror. discriminate.
Defined.

Lemma malformed_alert_has_no_effect_witness :
  process_alert repr_demo cfg_demo (gcp_healthy 10) clock_demo
                ncfg_demo sink_ok fmt_demo alert_null_labels []
  = (Ok [("status", VStr "error");
         ("error", VStr "'NoneType' object has no attribute 'get'");
         ("timestamp", VStr "2024-05-01T12:00:00")],
     [(UtcNow, None)]).
Proof.
  apply (malformed_alert_has_no_effect repr_demo cfg_demo (gcp_healthy 10) clock_demo
           ncfg_demo sink_ok fmt_demo alert_null_labels
           (MkExn "AttributeError" "'NoneType' object has no attribute 'get'") []).
  right. exists "unknown". split; reflexivity.
Defined.

Lemma http_requests_that_do_nothing_witness :
  exists body evs,
    autoheal_http repr_demo cfg_demo (gcp_healthy 10) clock_demo
                  ncfg_demo sink_ok fmt_demo post_empty_object []
    = (Ok (body, Some 400%Z), evs) /\
    evs = [].
Proof.
  destruct (http_requests_that_do_nothing repr_demo cfg_demo (gcp_healthy 10)
              clock_demo ncfg_demo sink_ok fmt_demo post_empty_object []
              (or_intror (ex_intro _ (VDict []) (conj eq_refl eq_refl))))
    as [body [code [evs [Hrun [_ [_ [Hpost _]]]]]]].
  destruct (Hpost eq_refl) as [_ [-> ->]].
  exists body, []. split; [exact Hrun | reflexivity].
Defined.

Lemma http_post_is_processed_witness :
  exists res evs,
    autoheal_http repr_demo cfg_demo (gcp_healthy 10) clock_demo
                  ncfg_demo sink_ok fmt_demo post_list []
    = (Ok (res, None), evs) /\
    res = [("status", VStr "error");
           ("error", VStr "'list' object has no attribute 'get'");
           ("timestamp", VStr "2024-05-01T12:00:00")].
Proof.
  destruct (http_post_is_processed repr_demo cfg_demo (gcp_healthy 10) clock_demo
              ncfg_demo sink_ok fmt_demo post_list (VList [VInt 1]) []
              eq_refl eq_refl eq_refl)
    as [res [evs [_ [Hrun Herror]]]].
  exists res, ([] ++ evs)%list. split; [exact Hrun|].
  apply (Herror (MkExn "AttributeError" "'list' object has no attribute 'get'")).
  left. reflexivity.
Defined.

(** An event whose data is None: the membership test raises, and the
    decoder is not reached. *)
Lemma event_that_cannot_be_opened_witness :
  autoheal_function repr_demo cfg_demo (gcp_healthy 10) clock_demo
                    ncfg_demo sink_ok fmt_demo (fun raw => Ok raw) VNone []
  = (Ok [("status", VStr "error");
         ("error", VStr "argument of type 'NoneType' is not iterable");
         ("timestamp", VStr "2024-05-01T12:00:00")],
     [(UtcNow, None)]).
Proof.
  apply (event_that_cannot_be_opened repr_demo cfg_demo (gcp_healthy 10) clock_demo
           ncfg_demo sink_ok fmt_demo (fun raw => Ok raw) VNone
           (MkExn "TypeError" "argument of type 'NoneType' is not iterable") []).
  left. reflexivity.
Defined.
